(** * centralprompt: a facade over two prompt back ends

    Shallow embedding of [central_prompt.py] and the properties of its
    validation, dispatch and error wrapping.

    Conventions of the model.
    - Python values are the inductive [PyVal]; arguments that the code
      inspects with [isinstance] are values of that type, not typed ahead.
    - A Python [str] is a [string]: a sequence of code points below 256.
      [strip], [lower], [\d] are given for that range as CPython defines them;
      what is proved of strings is proved of the strings of that range.
    - A conversion between [int] and [str] is refused by the interpreter
      above its limit of digits ([sys.get_int_max_str_digits()]), a parameter
      of the [World].
    - Everything outside the module (the two SDKs, [os.getenv], dotenv) is a
      [World]: a function from the calls made so far and the next call to its
      outcome.  Operations run in the monad [M], which threads the list of
      calls made and propagates raised exceptions.
    - A raised exception is an [Exc]: its class, [str(e)] and [__cause__].
      The outcomes of a [World] are instances of [Exception], the ones an
      [except Exception] clause catches. *)

From Stdlib Require Import String Ascii List ZArith Bool Lia.
From Stdlib Require Import Decimal DecimalString DecimalPos.
Import ListNotations.

Open Scope list_scope.
Open Scope string_scope.

#[local] Set Warnings "-register-all".

(* ------------------------------------------------------------------ *)
(** ** Python values *)

Inductive PyVal : Type :=
| VNone
| VBool (b : bool)
| VInt (z : Z)
| VStr (s : string)
| VList (items : list PyVal)
| VDict (entries : list (PyVal * PyVal))
| VObj (cls : string) (attrs : list (string * PyVal)).

(** A [Dict[str, Any]] built by the code itself (keyword arguments, result
    records): string keys in insertion order. *)
Definition StrDict : Type := list (string * PyVal).

(** [bool(v)]; instances of ordinary classes are true. *)
Definition truthy (v : PyVal) : bool :=
  match v with
  | VNone => false
  | VBool b => b
  | VInt z => negb (Z.eqb z 0)
  | VStr s => negb (String.eqb s "")
  | VList l => match l with [] => false | _ => true end
  | VDict d => match d with [] => false | _ => true end
  | VObj _ _ => true
  end.

Definition is_none (v : PyVal) : bool :=
  match v with VNone => true | _ => false end.

(** [isinstance(v, str)] *)
Definition is_str (v : PyVal) : bool :=
  match v with VStr _ => true | _ => false end.

(** [isinstance(v, int)]: [bool] is a subclass of [int]. *)
Definition is_int (v : PyVal) : bool :=
  match v with VInt _ | VBool _ => true | _ => false end.

(** [isinstance(v, list)] *)
Definition is_list (v : PyVal) : bool :=
  match v with VList _ => true | _ => false end.

(** [isinstance(v, dict)] *)
Definition is_dict (v : PyVal) : bool :=
  match v with VDict _ => true | _ => false end.

(** [v == s] for a string literal [s]. *)
Definition eq_str (v : PyVal) (s : string) : bool :=
  match v with VStr t => String.eqb t s | _ => false end.

(** The integer an [int] (or [bool]) stands for in a comparison. *)
Definition int_value (v : PyVal) : Z :=
  match v with
  | VInt z => z
  | VBool true => 1%Z
  | _ => 0%Z
  end.

(** [d[key]] on the entries of a dict, [None] when [key not in d]. *)
Fixpoint dict_get (d : list (PyVal * PyVal)) (key : string) : option PyVal :=
  match d with
  | [] => None
  | (k, v) :: rest => if eq_str k key then Some v else dict_get rest key
  end.

Fixpoint attr_get (attrs : list (string * PyVal)) (a : string) : option PyVal :=
  match attrs with
  | [] => None
  | (k, v) :: rest => if String.eqb k a then Some v else attr_get rest a
  end.

(** The attribute [a] of [obj], when it has one.  The built-in kinds carry
    neither [name] nor [version]. *)
Definition attr_of (obj : PyVal) (a : string) : option PyVal :=
  match obj with
  | VObj _ attrs => attr_get attrs a
  | _ => None
  end.

(** [getattr(obj, a, default)] *)
Definition getattr (obj : PyVal) (a : string) (default : PyVal) : PyVal :=
  match attr_of obj a with
  | Some v => v
  | None => default
  end.

(* ------------------------------------------------------------------ *)
(** ** Strings *)

Module PyStr.

Definition code (c : ascii) : N := N_of_ascii c.

Definition between (lo hi : N) (c : ascii) : bool :=
  (N.leb lo (code c) && N.leb (code c) hi)%bool.

(** [c.isspace()] below 256: TAB..CR, FS..US, space, NEL, NBSP. *)
Definition is_space (c : ascii) : bool :=
  (between 9 13 c || between 28 32 c
   || N.eqb (code c) 133 || N.eqb (code c) 160)%bool.

(** [[0-9]] *)
Definition is_digit (c : ascii) : bool := between 48 57 c.

(** [c.lower()] below 256: A..Z and the Latin-1 capitals except the
    multiplication sign. *)
Definition lower_char (c : ascii) : ascii :=
  if (between 65 90 c || between 192 214 c || between 216 222 c)%bool
  then ascii_of_N (code c + 32)
  else c.

Fixpoint lower (s : string) : string :=
  match s with
  | EmptyString => EmptyString
  | String c s' => String (lower_char c) (lower s')
  end.

Fixpoint lstrip (s : string) : string :=
  match s with
  | EmptyString => EmptyString
  | String c s' => if is_space c then lstrip s' else s
  end.

Fixpoint rstrip (s : string) : string :=
  match s with
  | EmptyString => EmptyString
  | String c s' =>
      match rstrip s' with
      | EmptyString => if is_space c then EmptyString else String c EmptyString
      | r => String c r
      end
  end.

(** [s.strip()] *)
Definition strip (s : string) : string := rstrip (lstrip s).

(** The decimal text of [z]: what [str(z)] is when the interpreter makes the
    conversion. *)
Definition of_Z (z : Z) : string := NilZero.string_of_int (Z.to_int z).

Definition digit_value (c : ascii) : Z := Z.of_N (code c - 48).

(** The number a run of digits denotes: what [int(s)] is when the
    interpreter makes the conversion. *)
Definition to_Z (s : string) : Z :=
  fold_left (fun acc c => (10 * acc + digit_value c)%Z) (list_ascii_of_string s) 0%Z.

(** [sub in s] *)
Definition contains (sub s : string) : Prop :=
  exists pre post, s = pre ++ sub ++ post.

End PyStr.

(* ------------------------------------------------------------------ *)
(** ** Exceptions and results *)

Inductive ExcKind : Type :=
| ValueError
| PromptProviderError
| PromptCreationError
| PromptFetchError
| PromptCompilationError
| ImportError
| AttributeError
| OtherError (cls : string).

Inductive Exc : Type :=
| MkExc (kind : ExcKind) (msg : string) (cause : option Exc).

Definition exc_kind (e : Exc) : ExcKind := let 'MkExc k _ _ := e in k.
Definition exc_msg (e : Exc) : string := let 'MkExc _ m _ := e in m.
Definition exc_cause (e : Exc) : option Exc := let 'MkExc _ _ c := e in c.

(** [isinstance(e, ValueError)]: [PromptProviderError] derives from it. *)
Definition is_value_error (e : Exc) : bool :=
  match exc_kind e with
  | ValueError | PromptProviderError => true
  | _ => false
  end.

Inductive Result (A : Type) : Type :=
| Raise (e : Exc)
| Return (a : A).
Arguments Raise {A} e.
Arguments Return {A} a.

(** [raise K(msg)] and [raise K(msg) from e] *)
Definition raise {A} (k : ExcKind) (msg : string) : Result A :=
  Raise (MkExc k msg None).
Definition raise_from {A} (k : ExcKind) (msg : string) (e : Exc) : Result A :=
  Raise (MkExc k msg (Some e)).

(* ------------------------------------------------------------------ *)
(** ** Provider normalisation *)

Definition _normalize_provider (provider : PyVal) : Result string :=
  match provider with
  | VStr p =>
      let value := PyStr.lower (PyStr.strip p) in
      if (String.eqb value "mlflow" || String.eqb value "ml-flow")%bool then
        Return "mlflow"
      else if (String.eqb value "langfuse" || String.eqb value "lang-fuse")%bool then
        Return "langfuse"
      else raise PromptProviderError "Unsupported provider; use 'mlflow' or 'langfuse'"
  | _ => raise PromptProviderError "provider must be a string"
  end.

(* ------------------------------------------------------------------ *)
(** ** Regular expressions

    The fragment of [re] the two patterns of [get_prompt] are written in,
    matched by backtracking as [re.match] does: anchored at position 0,
    greedy repetition, groups numbered from 1. *)

Module Re.

Inductive regex : Type :=
| Bol                                  (* ^ *)
| Eol                                  (* $ *)
| Lit (s : string)                     (* literal text *)
| ClassPlus (cls : ascii -> bool)      (* [...]+ *)
| Group (r : regex)                    (* ( r ) *)
| Cat (r1 r2 : regex).

Definition newline : ascii := ascii_of_N 10.

(** [Lit]: the text after the literal, when the subject starts with it. *)
Fixpoint strip_prefix (lit s : string) : option string :=
  match lit, s with
  | EmptyString, _ => Some s
  | String a lit', String b s' =>
      if Ascii.eqb a b then strip_prefix lit' s' else None
  | String _ _, EmptyString => None
  end.

Section Matcher.
Context {R : Type}.

(** One or more characters of the class, the longest run first. [taken] is
    what the repetition has consumed so far. *)
Fixpoint plus_from (cls : ascii -> bool) (taken s : string)
         (k : string -> string -> option R) : option R :=
  match s with
  | EmptyString => None
  | String c s' =>
      if cls c then
        match plus_from cls (taken ++ String c EmptyString) s' k with
        | Some r => Some r
        | None => k (taken ++ String c EmptyString) s'
        end
      else None
  end.

(** [run r at0 s gs k]: match [r] at the head of [s]; [at0] says whether
    this is position 0 of the subject, [gs] are the groups closed so far.
    The continuation receives the text matched, the rest and the groups. *)
Fixpoint run (r : regex) (at0 : bool) (s : string) (gs : list string)
         (k : string -> string -> list string -> option R) : option R :=
  match r with
  | Bol => if at0 then k EmptyString s gs else None
  | Eol =>
      (* end of the subject, or just before a newline that ends it *)
      match s with
      | EmptyString => k EmptyString s gs
      | String c EmptyString =>
          if Ascii.eqb c newline then k EmptyString s gs else None
      | _ => None
      end
  | Lit lit =>
      match strip_prefix lit s with
      | Some rest => k lit rest gs
      | None => None
      end
  | ClassPlus cls =>
      plus_from cls EmptyString s (fun m rest => k m rest gs)
  | Group r1 =>
      run r1 at0 s gs (fun m rest gs' => k m rest (gs' ++ [m])%list)
  | Cat r1 r2 =>
      run r1 at0 s gs (fun m1 rest1 gs1 =>
        run r2 (at0 && String.eqb m1 EmptyString)%bool rest1 gs1
            (fun m2 rest2 gs2 => k (m1 ++ m2) rest2 gs2))
  end.
End Matcher.

(** [re.match(r, s)]: the groups of the match, or [None]. *)
Definition re_match (r : regex) (s : string) : option (list string) :=
  run r true s [] (fun _ _ gs => Some gs).

(** [m.group(i)] for [i >= 1] *)
Definition group (gs : list string) (i : nat) : string :=
  nth (i - 1) gs EmptyString.

Definition not_slash (c : ascii) : bool := negb (Ascii.eqb c "/"%char).

(** [\d] in a [str] pattern: the decimal digits of Unicode, which below 256
    are [0] to [9]; the digits of other scripts lie above. *)
Definition decimal_digit (c : ascii) : bool := PyStr.is_digit c.

(** [r"^prompts:/[^/]+/\d+$"] *)
Definition path_pattern : regex :=
  Cat Bol (Cat (Lit "prompts:/") (Cat (ClassPlus not_slash)
    (Cat (Lit "/") (Cat (ClassPlus decimal_digit) Eol)))).

(** [r"^prompts:/([^/]+)/([0-9]+)$"] *)
Definition path_groups_pattern : regex :=
  Cat Bol (Cat (Lit "prompts:/") (Cat (Group (ClassPlus not_slash))
    (Cat (Lit "/") (Cat (Group (ClassPlus PyStr.is_digit)) Eol)))).

End Re.

(* ------------------------------------------------------------------ *)
(** ** The world outside the module *)

(** The calls that leave the module, with their arguments. *)
Inductive Call : Type :=
| LoadDotenv                                         (* dotenv.load_dotenv() *)
| GetEnv (var : string)                              (* os.getenv(var) *)
| SetTrackingUri (uri : PyVal)                       (* mlflow.set_tracking_uri *)
| SetExperiment (exp : PyVal)                        (* mlflow.set_experiment *)
| GetClient                                          (* langfuse.get_client() *)
| RegisterPrompt (kwargs : StrDict)                  (* mlflow.genai.register_prompt *)
| LoadPrompt (target : string)                       (* mlflow.genai.load_prompt *)
| CreatePrompt (client : PyVal) (payload : StrDict)  (* client.create_prompt *)
| ClientGetPrompt (client name : PyVal) (kwargs : StrDict) (* client.get_prompt *)
| Format (underlying : PyVal) (variables : StrDict)  (* underlying.format *)
| Compile (underlying : PyVal) (variables : StrDict) (* underlying.compile *).

Definition Trace : Type := list Call.

Record World : Type := {
  (** [mlflow is not None]: the import at the top of the module worked *)
  mlflow_imported : bool;
  (** the imported module has an attribute [genai] *)
  mlflow_genai : bool;
  (** [get_client is not None] *)
  get_client_imported : bool;
  (** what a call does, given the calls made before it *)
  respond : Trace -> Call -> Result PyVal;
  (** [str(v)] for the values whose text this development does not compute:
      lists, dicts and instances *)
  str_of_other : PyVal -> string;
  (** [sys.get_int_max_str_digits()]: the most digits a conversion between
      [int] and [str] may have; [0] for no limit, which is also how an
      interpreter older than the limit behaves; 4300 unless configured, and
      never set between 1 and 639 *)
  int_max_str_digits : N
}.

(** [hasattr(mlflow, "genai")] *)
Definition has_genai (W : World) : bool :=
  (mlflow_imported W && mlflow_genai W)%bool.

(** The text of [str(v)], when [str(v)] returns. *)
Definition py_str (W : World) (v : PyVal) : string :=
  match v with
  | VNone => "None"
  | VBool true => "True"
  | VBool false => "False"
  | VInt z => PyStr.of_Z z
  | VStr s => s
  | _ => str_of_other W v
  end.

(** The test the interpreter makes on a conversion of [ndigits] digits: it
    looks at its limit only above 640 digits. *)
Definition exceeds_limit (W : World) (ndigits : N) : bool :=
  (N.ltb 640 ndigits && N.ltb 0 (int_max_str_digits W)
   && N.ltb (int_max_str_digits W) ndigits)%bool.

Definition limit_text (W : World) : string :=
  PyStr.of_Z (Z.of_N (int_max_str_digits W)).

(** The number of decimal digits of [z], its sign apart. *)
Definition digit_count (z : Z) : N :=
  N.of_nat (String.length (PyStr.of_Z (Z.abs z))).

(** [str(z)] for an [int] *)
Definition str_of_int (W : World) (z : Z) : Result string :=
  if exceeds_limit W (digit_count z) then
    raise ValueError
      ("Exceeds the limit (" ++ limit_text W
       ++ " digits) for integer string conversion; "
       ++ "use sys.set_int_max_str_digits() to increase the limit")
  else Return (PyStr.of_Z z).

(** [int(s)] on a run of digits [s] *)
Definition int_of_digits (W : World) (s : string) : Result Z :=
  let ndigits := N.of_nat (String.length s) in
  if exceeds_limit W ndigits then
    raise ValueError
      ("Exceeds the limit (" ++ limit_text W
       ++ " digits) for integer string conversion: value has "
       ++ PyStr.of_Z (Z.of_N ndigits)
       ++ " digits; use sys.set_int_max_str_digits() to increase the limit")
  else Return (PyStr.to_Z s).

(** [str(v)], as a field [{v}] of an f-string formats it. *)
Definition py_format (W : World) (v : PyVal) : Result string :=
  match v with
  | VInt z => str_of_int W z
  | _ => Return (py_str W v)
  end.

(** Computations that make calls and may raise. *)
Definition M (A : Type) : Type := Trace -> Result A * Trace.

Definition ret {A} (a : A) : M A := fun tr => (Return a, tr).

Definition bind {A B} (m : M A) (k : A -> M B) : M B :=
  fun tr =>
    match m tr with
    | (Return a, tr') => k a tr'
    | (Raise e, tr') => (Raise e, tr')
    end.

Notation "x <- m ;; k" := (bind m (fun x => k))
  (at level 61, m at next level, right associativity).
Notation "m ;;; k" := (bind m (fun _ => k))
  (at level 61, right associativity).

(** A pure step: a validator or a [raise]. *)
Definition lift {A} (r : Result A) : M A := fun tr => (r, tr).

Definition throw {A} (k : ExcKind) (msg : string) : M A := lift (raise k msg).

(** [try: m  except Exception as e: handler e] *)
Definition try_ {A} (m : M A) (handler : Exc -> M A) : M A :=
  fun tr =>
    match m tr with
    | (Return a, tr') => (Return a, tr')
    | (Raise e, tr') => handler e tr'
    end.

(** One call into the world, recorded in the trace. *)
Definition call (W : World) (c : Call) : M PyVal :=
  fun tr => (respond W tr c, (tr ++ [c])%list).

(* ------------------------------------------------------------------ *)
(** ** Validators *)

(** The body of the loop of [_is_chat_template], one item. *)
Definition chat_item (item : PyVal) : bool :=
  match item with
  | VDict d =>
      match dict_get d "role", dict_get d "content" with
      | Some role, Some content => (is_str role && is_str content)%bool
      | _, _ => false
      end
  | _ => false
  end.

Fixpoint chat_items (items : list PyVal) : bool :=
  match items with
  | [] => true
  | item :: rest => if chat_item item then chat_items rest else false
  end.

Definition _is_chat_template (obj : PyVal) : bool :=
  match obj with
  | VList items => chat_items items
  | _ => false
  end.

Definition _validate_name (name : PyVal) : Result unit :=
  match name with
  | VStr s =>
      if String.eqb (PyStr.strip s) "" then
        raise ValueError "name must be a non-empty string"
      else Return tt
  | _ => raise ValueError "name must be a non-empty string"
  end.

Definition _validate_template (template : PyVal) : Result unit :=
  if is_str template then Return tt
  else if _is_chat_template template then Return tt
  else raise ValueError
         "template must be a string or a chat template list of {role, content} dicts".

Definition _validate_labels (labels : PyVal) : Result unit :=
  match labels with
  | VNone => Return tt
  | VList xs =>
      if forallb is_str xs then Return tt
      else raise ValueError "labels must be a list of strings"
  | _ => raise ValueError "labels must be a list of strings"
  end.

(** The check of [tags] written inline in [set_prompt]. *)
Definition validate_tags (tags : PyVal) : Result unit :=
  match tags with
  | VNone => Return tt
  | VDict d =>
      if forallb (fun kv => (is_str (fst kv) && is_str (snd kv))%bool) d
      then Return tt
      else raise ValueError "tags must be a dict[str, str]"
  | _ => raise ValueError "tags must be a dict[str, str]"
  end.

(* ------------------------------------------------------------------ *)
(** ** Back-end initialisers *)

(** The best-effort [load_dotenv()]: whatever it raises is dropped. *)
Definition load_env_file (W : World) (load_env : PyVal) : M unit :=
  if truthy load_env then
    try_ (call W LoadDotenv ;;; ret tt) (fun _ => ret tt)
  else ret tt.

Definition _ensure_mlflow (W : World) (tracking_uri experiment load_env : PyVal)
  : M unit :=
  if negb (mlflow_imported W) then throw ImportError "mlflow is not installed"
  else
    load_env_file W load_env ;;;
    uri <- (if truthy tracking_uri then ret tracking_uri
            else call W (GetEnv "MLFLOW_TRACKING_URI")) ;;
    (if truthy uri then call W (SetTrackingUri uri) ;;; ret tt else ret tt) ;;;
    exp <- (if truthy experiment then ret experiment
            else call W (GetEnv "MLFLOW_EXPERIMENT_NAME")) ;;
    (if truthy exp then call W (SetExperiment exp) ;;; ret tt else ret tt).

Definition _ensure_langfuse (W : World) (load_env : PyVal) : M PyVal :=
  if negb (get_client_imported W) then throw ImportError "langfuse is not installed"
  else
    load_env_file W load_env ;;;
    call W GetClient.

(* ------------------------------------------------------------------ *)
(** ** PromptHandle *)

Record PromptHandle : Type := {
  ph_provider : string;
  ph_underlying : PyVal;
  ph_name : PyVal;
  ph_version : PyVal
}.

(** [PromptHandle.__init__] *)
Definition PromptHandle_init (provider underlying name version : PyVal)
  : Result PromptHandle :=
  match _normalize_provider provider with
  | Raise e => Raise e
  | Return p =>
      Return {|
        ph_provider := p;
        ph_underlying := underlying;
        ph_name := if negb (is_none name) then name
                   else getattr underlying "name" VNone;
        ph_version := if negb (is_none version) then version
                      else getattr underlying "version" VNone
      |}
  end.

Definition unsupported_provider : string :=
  "Unsupported provider; use 'mlflow' or 'langfuse'".

(** [PromptHandle.compile] *)
Definition compile (W : World) (self : PromptHandle) (variables : StrDict)
  : M PyVal :=
  rendered <-
    try_
      (if String.eqb (ph_provider self) "mlflow" then
         v <- call W (Format (ph_underlying self) variables) ;; ret (Some v)
       else if String.eqb (ph_provider self) "langfuse" then
         v <- call W (Compile (ph_underlying self) variables) ;; ret (Some v)
       else ret None)
      (fun e =>
         lift (raise_from PromptCompilationError
                 ("Failed to compile prompt for provider '" ++ ph_provider self
                  ++ "': " ++ exc_msg e) e)) ;;
  match rendered with
  | Some v => ret v
  | None => throw PromptProviderError unsupported_provider
  end.

(* ------------------------------------------------------------------ *)
(** ** CentralPrompt *)

Record CentralPrompt : Type := {
  cp_provider : string;
  cp_experiment : PyVal;
  cp_load_env : PyVal;
  cp_langfuse_client : PyVal
}.

(** [CentralPrompt.__init__] *)
Definition CentralPrompt_init (W : World) (provider experiment load_env : PyVal)
  : M CentralPrompt :=
  p <- lift (_normalize_provider provider) ;;
  if (negb (is_none experiment) && negb (is_str experiment))%bool then
    throw ValueError "experiment must be a string or None"
  else
    (if String.eqb p "mlflow" then _ensure_mlflow W VNone experiment load_env
     else ret tt) ;;;
    client <- (if String.eqb p "langfuse" then _ensure_langfuse W load_env
               else ret VNone) ;;
    ret {| cp_provider := p;
           cp_experiment := experiment;
           cp_load_env := load_env;
           cp_langfuse_client := client |}.

(** [self._langfuse_client or _ensure_langfuse(self.load_env)] *)
Definition client_of (W : World) (self : CentralPrompt) : M PyVal :=
  if truthy (cp_langfuse_client self) then ret (cp_langfuse_client self)
  else _ensure_langfuse W (cp_load_env self).

(** [d[key] = v] only when [v is not None], on a dict under construction. *)
Definition optional (key : string) (v : PyVal) : StrDict :=
  if is_none v then [] else [(key, v)].

Definition register_kwargs (name template response_format commit_message tags : PyVal)
  : StrDict :=
  ([("name", name); ("template", template)]
   ++ optional "response_format" response_format
   ++ optional "commit_message" commit_message
   ++ optional "tags" tags)%list.

(** [prompt_type or ("chat" if _is_chat_template(template) else "text")] *)
Definition derived_type (prompt_type template : PyVal) : PyVal :=
  if truthy prompt_type then prompt_type
  else VStr (if _is_chat_template template then "chat" else "text").

Definition create_payload (name dtype template labels : PyVal) : StrDict :=
  ([("name", name); ("type", dtype); ("prompt", template)]
   ++ optional "labels" labels)%list.

Definition set_prompt (W : World) (self : CentralPrompt)
    (name template prompt_type labels tags response_format commit_message : PyVal)
  : M StrDict :=
  lift (_validate_name name) ;;;
  lift (_validate_template template) ;;;
  lift (_validate_labels labels) ;;;
  lift (validate_tags tags) ;;;
  if String.eqb (cp_provider self) "mlflow" then
    if negb (has_genai W) then
      throw ImportError
        "mlflow.genai is not available. Please upgrade mlflow to a version that supports genai."
    else
      let kwargs :=
        register_kwargs name template response_format commit_message tags in
      prompt_obj <-
        try_ (call W (RegisterPrompt kwargs))
             (fun e => lift (raise_from PromptCreationError
                               ("MLflow prompt creation failed: " ++ exc_msg e) e)) ;;
      ret [("provider", VStr (cp_provider self));
           ("name", getattr prompt_obj "name" name);
           ("version", getattr prompt_obj "version" VNone)]
  else if String.eqb (cp_provider self) "langfuse" then
    let dtype := derived_type prompt_type template in
    if negb (eq_str dtype "text" || eq_str dtype "chat")%bool then
      throw ValueError "prompt_type must be 'text' or 'chat'"
    else if (eq_str dtype "chat" && negb (_is_chat_template template))%bool then
      throw ValueError
        "For prompt_type='chat', template must be a list of {role, content} dicts"
    else if (eq_str dtype "text" && negb (is_str template))%bool then
      throw ValueError "For prompt_type='text', template must be a string"
    else
      client <- client_of W self ;;
      let payload := create_payload name dtype template labels in
      try_ (call W (CreatePrompt client payload))
           (fun e => lift (raise_from PromptCreationError
                             ("Langfuse prompt creation failed: " ++ exc_msg e
                              ++ ". Ensure LANGFUSE credentials are configured.") e)) ;;;
      ret [("provider", VStr (cp_provider self)); ("name", name)]
  else throw PromptProviderError unsupported_provider.

(** [mlflow.genai.load_prompt(target)]: reaching [genai] fails with an
    [AttributeError] when the module is absent or has no such attribute. *)
Definition load_prompt (W : World) (target : string) : M PyVal :=
  if negb (mlflow_imported W) then
    throw AttributeError "'NoneType' object has no attribute 'genai'"
  else if negb (mlflow_genai W) then
    throw AttributeError "module 'mlflow' has no attribute 'genai'"
  else call W (LoadPrompt target).

(** The mlflow branch of [get_prompt] from the test of the target on. *)
Definition get_prompt_mlflow_target (W : World) (self : CentralPrompt)
    (target : PyVal) : M PromptHandle :=
  match target with
  | VStr t =>
      match Re.re_match Re.path_pattern t with
      | None =>
          throw ValueError
            "mlflow 'path' must be of the form 'prompts:/<name>/<version>'"
      | Some _ =>
          prompt_obj <-
            try_ (load_prompt W t)
                 (fun e => lift (raise_from PromptFetchError
                                   ("MLflow load_prompt failed for '" ++ t ++ "': "
                                    ++ exc_msg e) e)) ;;
          let m := Re.re_match Re.path_groups_pattern t in
          let name_extracted :=
            match m with Some gs => VStr (Re.group gs 1) | None => VNone end in
          ver_extracted <-
            match m with
            | Some gs =>
                v <- lift (int_of_digits W (Re.group gs 2)) ;; ret (VInt v)
            | None => ret VNone
            end ;;
          lift (PromptHandle_init (VStr (cp_provider self)) prompt_obj
                                  name_extracted ver_extracted)
      end
  | _ =>
      throw ValueError
        "mlflow 'path' must be of the form 'prompts:/<name>/<version>'"
  end.

Definition get_prompt (W : World) (self : CentralPrompt)
    (name version path label : PyVal) : M PromptHandle :=
  if String.eqb (cp_provider self) "mlflow" then
    if is_none path then
      if (negb (truthy name) || is_none version)%bool then
        throw ValueError
          "For mlflow, provide either 'path' or both 'name' and 'version'"
      else if (negb (is_int version) || Z.ltb (int_value version) 1)%bool then
        throw ValueError "version must be a positive integer"
      else
        name_text <- lift (py_format W name) ;;
        version_text <- lift (py_format W version) ;;
        get_prompt_mlflow_target W self
          (VStr ("prompts:/" ++ name_text ++ "/" ++ version_text))
    else get_prompt_mlflow_target W self path
  else if String.eqb (cp_provider self) "langfuse" then
    client <- client_of W self ;;
    if (negb (truthy name) || negb (is_str name))%bool then
      throw ValueError "For langfuse, 'name' is required and must be a string"
    else if (negb (is_none label) && negb (is_str label))%bool then
      throw ValueError "For langfuse, 'label' must be a string if provided"
    else if (negb (is_none version) && negb (is_none label))%bool then
      throw ValueError "For langfuse, provide either 'version' or 'label', not both"
    else
      prompt_obj <-
        try_ (if negb (is_none label) then
                call W (ClientGetPrompt client name
                          [("version", version); ("label", label)])
              else
                call W (ClientGetPrompt client name [("version", version)]))
             (fun e => lift (raise_from PromptFetchError
                               ("Langfuse get_prompt failed for '" ++ py_str W name
                                ++ "': " ++ exc_msg e) e)) ;;
      if is_none prompt_obj then
        throw PromptFetchError ("Langfuse prompt '" ++ py_str W name ++ "' not found")
      else
        lift (PromptHandle_init (VStr (cp_provider self)) prompt_obj name version)
  else throw PromptProviderError unsupported_provider.

(* ------------------------------------------------------------------ *)
(** ** Sample worlds and instances *)

Definition sample_client : PyVal := VObj "Langfuse" [].

Definition sample_prompt : PyVal :=
  VObj "PromptVersion" [("name", VStr "greeting"); ("version", VInt 3)].

Definition boom : Exc := MkExc (OtherError "RuntimeError") "boom" None.

Definition world_with (r : Trace -> Call -> Result PyVal) : World :=
  {| mlflow_imported := true;
     mlflow_genai := true;
     get_client_imported := true;
     respond := r;
     str_of_other := fun _ => "<object>";
     int_max_str_digits := 4300 |}.

(** Both back ends answer every request. *)
Definition accepting : World :=
  world_with (fun _ c =>
    match c with
    | GetClient => Return sample_client
    | RegisterPrompt _ | LoadPrompt _ | ClientGetPrompt _ _ _ => Return sample_prompt
    | Format _ _ | Compile _ _ => Return (VStr "Hello Ada")
    | _ => Return VNone
    end).

(** Both back ends fail every request after initialisation. *)
Definition failing : World :=
  world_with (fun _ c =>
    match c with
    | GetClient => Return sample_client
    | LoadDotenv | GetEnv _ | SetTrackingUri _ | SetExperiment _ => Return VNone
    | _ => Raise boom
    end).

(** The name-based back end knows no prompt. *)
Definition empty_store : World :=
  world_with (fun _ c =>
    match c with
    | GetClient => Return sample_client
    | _ => Return VNone
    end).

Definition mlflow_instance : CentralPrompt :=
  {| cp_provider := "mlflow";
     cp_experiment := VNone;
     cp_load_env := VBool false;
     cp_langfuse_client := VNone |}.

Definition langfuse_instance : CentralPrompt :=
  {| cp_provider := "langfuse";
     cp_experiment := VNone;
     cp_load_env := VBool false;
     cp_langfuse_client := sample_client |}.

(* ------------------------------------------------------------------ *)
(** ** Vocabulary of the properties *)

Definition mlflow_aliases : list string := ["mlflow"; "ml-flow"].
Definition langfuse_aliases : list string := ["langfuse"; "lang-fuse"].

(** What is compared with the aliases: the input trimmed and lower-cased. *)
Definition normal_form (s : string) : string := PyStr.lower (PyStr.strip s).

(** A dict with string-typed [role] and [content] entries. *)
Definition role_content_dict (item : PyVal) : Prop :=
  exists d role content,
    item = VDict d /\
    dict_get d "role" = Some (VStr role) /\
    dict_get d "content" = Some (VStr content).

(** A string, or a list of such dicts. *)
Definition valid_template (v : PyVal) : Prop :=
  (exists s, v = VStr s) \/
  (exists items, v = VList items /\ Forall role_content_dict items).

(** A validator returns or raises a plain [ValueError]. *)
Definition validates (r : Result unit) : Prop :=
  r = Return tt \/ exists msg, r = Raise (MkExc ValueError msg None).

(** The record [set_prompt] returns on the registry-path provider, read off
    the object [obj] the back end returned. *)
Definition registration_record (obj name : PyVal) : StrDict :=
  [("provider", VStr "mlflow");
   ("name", match attr_of obj "name" with Some v => v | None => name end);
   ("version", match attr_of obj "version" with Some v => v | None => VNone end)].

Definition all_chars (cls : ascii -> bool) (s : string) : bool :=
  forallb cls (list_ascii_of_string s).

(** A name segment of a path: not empty, no slash. *)
Definition name_segment (n : string) : Prop :=
  n <> "" /\ all_chars Re.not_slash n = true.

(** The repetition cannot go on into [rest]. *)
Definition stops (cls : ascii -> bool) (rest : string) : Prop :=
  match rest with
  | EmptyString => True
  | String c _ => cls c = false
  end.

(** The instance holds the client its constructor acquired. *)
Definition holds_client (self : CentralPrompt) : Prop :=
  truthy (cp_langfuse_client self) = true.

(** An instance of the name-based provider holds its client; the other
    provider has none to hold. *)
Definition ready (self : CentralPrompt) : Prop :=
  cp_provider self = "langfuse" -> holds_client self.







(* ------------------------------------------------------------------ *)
(** ** PromptHandle.__repr__ *)

(** [type(v).__name__] *)
Definition type_name (v : PyVal) : string :=
  match v with
  | VNone => "NoneType"
  | VBool _ => "bool"
  | VInt _ => "int"
  | VStr _ => "str"
  | VList _ => "list"
  | VDict _ => "dict"
  | VObj cls _ => cls
  end.

(** [PromptHandle.__repr__] *)
Definition PromptHandle_repr (W : World) (self : PromptHandle) : Result string :=
  let provider_part := "provider='" ++ ph_provider self ++ "'" in
  match
    (if negb (is_none (ph_name self)) then
       match py_format W (ph_name self) with
       | Return text => Return ["name='" ++ text ++ "'"]
       | Raise e => Raise e
       end
     else Return [])
  with
  | Raise e => Raise e
  | Return name_part =>
      match
        (if negb (is_none (ph_version self)) then
           match py_format W (ph_version self) with
           | Return text => Return ["version=" ++ text]
           | Raise e => Raise e
           end
         else Return [])
      with
      | Raise e => Raise e
      | Return version_part =>
          let underlying_part :=
            "underlying=" ++ type_name (ph_underlying self) in
          let parts :=
            ([provider_part] ++ name_part ++ version_part
             ++ [underlying_part])%list in
          Return ("PromptHandle(" ++ String.concat ", " parts ++ ")")
      end
  end.

(* ------------------------------------------------------------------ *)
(** ** Vocabulary of the further properties *)

(** One of the two canonical provider names. *)
Definition canonical (p : string) : Prop := p = "mlflow" \/ p = "langfuse".

(** A string with a character that is not white space. *)
Definition valid_name (v : PyVal) : Prop :=
  exists s c, v = VStr s /\ In c (list_ascii_of_string s) /\ PyStr.is_space c = false.

(** [None] or a list of strings. *)
Definition valid_labels (v : PyVal) : Prop :=
  v = VNone \/ exists xs, v = VList xs /\ Forall (fun x => exists s, x = VStr s) xs.

(** [None] or a dict from strings to strings. *)
Definition valid_tags (v : PyVal) : Prop :=
  v = VNone \/
  exists d, v = VDict d /\
            Forall (fun kv => exists k s, kv = (VStr k, VStr s)) d.

(** A version segment of a path: decimal digits, at least one. *)
Definition digits (d : string) : Prop :=
  d <> "" /\ all_chars PyStr.is_digit d = true.

Definition newline_string : string := String Re.newline "".

(** [t] is [prompts:/<n>/<d>], or that followed by one newline. *)
Definition path_shape (t n d : string) : Prop :=
  name_segment n /\ digits d /\
  (t = "prompts:/" ++ n ++ "/" ++ d \/
   t = "prompts:/" ++ n ++ "/" ++ d ++ newline_string).

Fixpoint last_char (s : string) : option ascii :=
  match s with
  | EmptyString => None
  | String c EmptyString => Some c
  | String _ s' => last_char s'
  end.

(** A run of [ndigits] digits is within the limit of the interpreter. *)
Definition fits (W : World) (ndigits : N) : Prop :=
  exceeds_limit W ndigits = false.

(** The number of characters of [s]. *)
Definition length_N (s : string) : N := N.of_nat (String.length s).

(** [str(v)] is refused: [v] is an [int] of more digits than the limit. *)
Definition over_limit (W : World) (v : PyVal) : bool :=
  match v with
  | VInt z => exceeds_limit W (digit_count z)
  | _ => false
  end.

(** [n] times the digit [0]. *)
Fixpoint zeros (n : nat) : string :=
  match n with
  | O => ""
  | S n' => String "0" (zeros n')
  end.

(** The interpreter set to its lowest limit, 640 digits. *)
Definition lowest_limit : World :=
  {| mlflow_imported := true;
     mlflow_genai := true;
     get_client_imported := true;
     respond := respond accepting;
     str_of_other := str_of_other accepting;
     int_max_str_digits := 640 |}.

(** The trace after the best-effort [load_dotenv()]. *)
Definition after_dotenv (load_env : PyVal) (tr : Trace) : Trace :=
  if truthy load_env then (tr ++ [LoadDotenv])%list else tr.


(** The environment file cannot be loaded; the client is there. *)
Definition without_dotenv : World :=
  world_with (fun _ c =>
    match c with
    | LoadDotenv => Raise boom
    | _ => Return sample_client
    end).

(* ================================================================== *)
(** * Properties *)

(** ** Evaluation on samples *)

Example normalize_mixed :
  _normalize_provider (VStr "  ML-Flow
") = Return "mlflow".
Proof. reflexivity. Qed.

Example path_matches :
  Re.re_match Re.path_groups_pattern "prompts:/greeting/3" = Some ["greeting"; "3"].
Proof. reflexivity. Qed.

Example path_rejects_letters :
  Re.re_match Re.path_pattern "prompts:/greeting/abc" = None.
Proof. reflexivity. Qed.

Example path_rejects_nested :
  Re.re_match Re.path_pattern "prompts:/a/b/3" = None.
Proof. reflexivity. Qed.

Example path_accepts_final_newline :
  Re.re_match Re.path_groups_pattern "prompts:/a/12
" = Some ["a"; "12"].
Proof. reflexivity. Qed.


Example init_mlflow :
  CentralPrompt_init accepting (VStr " MLflow ") VNone (VBool false) [] =
  (Return mlflow_instance,
   [GetEnv "MLFLOW_TRACKING_URI"; GetEnv "MLFLOW_EXPERIMENT_NAME"]).
Proof. reflexivity. Qed.

Example init_langfuse :
  CentralPrompt_init accepting (VStr "Lang-Fuse") VNone (VBool false) [] =
  (Return langfuse_instance, [GetClient]).
Proof. reflexivity. Qed.

Example init_unknown :
  CentralPrompt_init accepting (VStr "openai") VNone (VBool false) [] =
  (raise PromptProviderError unsupported_provider, []).
Proof. reflexivity. Qed.

Example fetch_by_label :
  get_prompt accepting langfuse_instance (VStr "greeting") VNone VNone (VStr "prod") []
  = (Return {| ph_provider := "langfuse"; ph_underlying := sample_prompt;
               ph_name := VStr "greeting"; ph_version := VInt 3 |},
     [ClientGetPrompt sample_client (VStr "greeting")
        [("version", VNone); ("label", VStr "prod")]]).
Proof. reflexivity. Qed.

(* ------------------------------------------------------------------ *)
(** ** Strings *)

Lemma append_assoc (a b c : string) : (a ++ b) ++ c = a ++ (b ++ c).
Proof. induction a as [|x a IH]; simpl; [reflexivity | now rewrite IH]. Qed.

Lemma append_empty_r (a : string) : a ++ "" = a.
Proof. induction a as [|x a IH]; simpl; [reflexivity | now rewrite IH]. Qed.

(** Unfolding of the monad on an explicit trace. *)
Ltac run_m :=
  unfold bind, lift, throw, try_, call, ret, raise, raise_from in *; simpl in *.

(* ------------------------------------------------------------------ *)
(** ** Provider normalisation *)

Lemma in_two (x a b : string) :
  In x [a; b] <-> (String.eqb x a || String.eqb x b)%bool = true.
Proof.
  simpl. rewrite orb_true_iff, !String.eqb_eq. split.
  - intros [H | [H | []]]; auto.
  - intros [H | H]; auto.
Qed.

(** C2. Provider normalisation maps every string whose trimmed, lower-cased
    form is [mlflow] or [ml-flow] to [mlflow], every string whose form is
    [langfuse] or [lang-fuse] to [langfuse], raises the provider error on
    every other value, strings or not, and makes no call. *)
Theorem normalize_provider_spec (v : PyVal) :
  (forall s, v = VStr s -> In (normal_form s) mlflow_aliases ->
             _normalize_provider v = Return "mlflow") /\
  (forall s, v = VStr s -> In (normal_form s) langfuse_aliases ->
             _normalize_provider v = Return "langfuse") /\
  ((forall s, v = VStr s ->
              ~ In (normal_form s) (mlflow_aliases ++ langfuse_aliases)%list) ->
   exists msg, _normalize_provider v = Raise (MkExc PromptProviderError msg None)) /\
  (forall tr : Trace, lift (_normalize_provider v) tr = (_normalize_provider v, tr)).
Proof.
  repeat split.
  - intros s -> H. apply in_two in H. unfold normal_form in H.
    unfold _normalize_provider. now rewrite H.
  - intros s -> H. apply in_two in H. unfold normal_form in H.
    unfold _normalize_provider. rewrite H.
    destruct ((_ =? "mlflow") || _)%bool eqn:E; [|reflexivity].
    apply orb_true_iff in E. rewrite !String.eqb_eq in E.
    apply orb_true_iff in H. rewrite !String.eqb_eq in H.
    destruct E as [E | E], H as [H | H]; rewrite E in H; discriminate.
  - intros H. destruct v; try (eexists; reflexivity).
    specialize (H s eq_refl). unfold _normalize_provider. fold (normal_form s).
    destruct ((_ =? "mlflow") || _)%bool eqn:E1.
    { exfalso. apply H, in_or_app. left. now apply in_two. }
    destruct ((_ =? "langfuse") || _)%bool eqn:E2.
    { exfalso. apply H, in_or_app. right. now apply in_two. }
    eexists; reflexivity.
Qed.

Lemma normalize_provider_witness :
  _normalize_provider (VStr "  ML-Flow ") = Return "mlflow" /\
  _normalize_provider (VStr "LangFuse") = Return "langfuse" /\
  (exists msg, _normalize_provider (VInt 7) = Raise (MkExc PromptProviderError msg None)) /\
  (exists msg, _normalize_provider (VStr "ml flow") = Raise (MkExc PromptProviderError msg None)).
Proof.
  split; [|split; [|split]].
  - apply (proj1 (normalize_provider_spec (VStr "  ML-Flow ")) _ eq_refl).
    vm_compute. right. left. reflexivity.
  - apply (proj1 (proj2 (normalize_provider_spec (VStr "LangFuse"))) _ eq_refl).
    vm_compute. left. reflexivity.
  - apply (proj1 (proj2 (proj2 (normalize_provider_spec (VInt 7))))).
    intros s H. discriminate H.
  - apply (proj1 (proj2 (proj2 (normalize_provider_spec (VStr "ml flow"))))).
    intros s H. injection H as <-. vm_compute.
    intros [H | [H | [H | [H | []]]]]; discriminate H.
Defined.

(* ------------------------------------------------------------------ *)
(** ** Template validation *)

Lemma is_str_true (v : PyVal) : is_str v = true <-> exists s, v = VStr s.
Proof.
  split.
  - destruct v; try discriminate. intros _. now eexists.
  - now intros [s ->].
Qed.

Lemma chat_item_spec (item : PyVal) :
  chat_item item = true <-> role_content_dict item.
Proof.
  split.
  - destruct item as [| | | | |d|]; simpl; try discriminate.
    destruct (dict_get d "role") as [role|] eqn:Er; [|discriminate].
    destruct (dict_get d "content") as [content|] eqn:Ec; [|discriminate].
    intros H. apply andb_true_iff in H as [Hr Hc].
    apply is_str_true in Hr as [r ->]. apply is_str_true in Hc as [c ->].
    now exists d, r, c.
  - intros (d & r & c & -> & Hr & Hc). simpl. now rewrite Hr, Hc.
Qed.

Lemma chat_items_spec (items : list PyVal) :
  chat_items items = true <-> Forall role_content_dict items.
Proof.
  induction items as [|item rest IH]; simpl.
  - split; [constructor | reflexivity].
  - destruct (chat_item item) eqn:E.
    + rewrite IH. split.
      * intros H. constructor; [now apply chat_item_spec | exact H].
      * intros H. now inversion H.
    + split; [discriminate |].
      intros H. inversion H as [|? ? Hi _]; subst.
      apply chat_item_spec in Hi. congruence.
Qed.

Lemma is_chat_template_spec (v : PyVal) :
  _is_chat_template v = true <->
  exists items, v = VList items /\ Forall role_content_dict items.
Proof.
  split.
  - destruct v; simpl; try discriminate.
    intros H. eexists; split; [reflexivity | now apply chat_items_spec].
  - intros (items & -> & H). simpl. now apply chat_items_spec.
Qed.

Lemma validate_template_ok (v : PyVal) :
  _validate_template v = Return tt <-> valid_template v.
Proof.
  unfold _validate_template, valid_template.
  rewrite <- is_str_true, <- is_chat_template_spec.
  destruct (is_str v), (_is_chat_template v); simpl;
    intuition (auto; discriminate).
Qed.

(** C6. The template validator returns on exactly the strings and the lists
    whose every element is a dict with string-typed [role] and [content];
    on anything else it raises [ValueError].  It accepts ["hello {x}"] and
    [[{"role": "user", "content": "hi"}]] and rejects [123],
    [[{"role": "user"}]] and [["not a dict"]]. *)
Theorem validate_template_spec :
  (forall v, _validate_template v = Return tt <-> valid_template v) /\
  (forall v, ~ valid_template v ->
             exists msg, _validate_template v = Raise (MkExc ValueError msg None)) /\
  _validate_template (VStr "hello {x}") = Return tt /\
  _validate_template
    (VList [VDict [(VStr "role", VStr "user"); (VStr "content", VStr "hi")]])
    = Return tt /\
  (exists msg, _validate_template (VInt 123) = Raise (MkExc ValueError msg None)) /\
  (exists msg, _validate_template (VList [VDict [(VStr "role", VStr "user")]])
               = Raise (MkExc ValueError msg None)) /\
  (exists msg, _validate_template (VList [VStr "not a dict"])
               = Raise (MkExc ValueError msg None)).
Proof.
  split; [exact validate_template_ok |].
  split.
  - intros v Hv. rewrite <- validate_template_ok in Hv.
    unfold _validate_template in *.
    destruct (is_str v); [now elim Hv |].
    destruct (_is_chat_template v); [now elim Hv |].
    eexists; reflexivity.
  - repeat split; try reflexivity; eexists; reflexivity.
Qed.

Lemma validate_template_witness :
  exists msg,
    _validate_template (VList [VDict [(VStr "role", VInt 1); (VStr "content", VStr "hi")]])
    = Raise (MkExc ValueError msg None).
Proof.
  apply (proj1 (proj2 validate_template_spec)).
  intros [[s H] | (items & H & Hall)]; [discriminate H |].
  injection H as <-.
  inversion Hall as [|? ? (d & r & c & Hd & Hr & _) _]; subst.
  injection Hd as <-. simpl in Hr. discriminate Hr.
Defined.

(* ------------------------------------------------------------------ *)
(** ** set_prompt *)

Lemma validate_name_cases (v : PyVal) : validates (_validate_name v).
Proof.
  unfold validates, _validate_name.
  destruct v; try (right; eexists; reflexivity).
  destruct (_ =? _); [right; eexists; reflexivity | now left].
Qed.

Lemma validate_template_cases (v : PyVal) : validates (_validate_template v).
Proof.
  unfold validates, _validate_template.
  destruct (is_str v); [now left |].
  destruct (_is_chat_template v); [now left | right; eexists; reflexivity].
Qed.

Lemma validate_labels_cases (v : PyVal) : validates (_validate_labels v).
Proof.
  unfold validates, _validate_labels.
  destruct v; try (right; eexists; reflexivity); [now left |].
  destruct (forallb _ _); [now left | right; eexists; reflexivity].
Qed.

Lemma validate_tags_cases (v : PyVal) : validates (validate_tags v).
Proof.
  unfold validates, validate_tags.
  destruct v; try (right; eexists; reflexivity); [now left |].
  destruct (forallb _ _); [now left | right; eexists; reflexivity].
Qed.

(** Case analysis on one of the checks that open [set_prompt]; [fin] closes
    the goal of the failing case. *)
Ltac validator H fin :=
  let Hv := fresh "Hv" in
  destruct H as [Hv | [? Hv]]; rewrite Hv; clear Hv; cbn beta iota;
  [| solve [fin]].

Ltac validators name template labels tags fin :=
  unfold set_prompt, bind at 1 2 3 4, lift at 1 2 3 4;
  validator (validate_name_cases name) fin;
  validator (validate_template_cases template) fin;
  validator (validate_labels_cases labels) fin;
  validator (validate_tags_cases tags) fin.

Ltac raises_value_error := eexists; reflexivity.

(** C1, as amended. On an instance of the name-based provider, [set_prompt]
    with [prompt_type="chat"] and a plain-string template raises [ValueError]
    and makes no call, whatever the other arguments are. *)
Theorem set_prompt_chat_string_langfuse
    (W : World) (self : CentralPrompt)
    (name labels tags response_format commit_message : PyVal)
    (s : string) (tr : Trace) :
  cp_provider self = "langfuse" ->
  exists msg,
    set_prompt W self name (VStr s) (VStr "chat") labels tags
               response_format commit_message tr
    = (Raise (MkExc ValueError msg None), tr).
Proof.
  intros Hp.
  validators name (VStr s) labels tags raises_value_error.
  rewrite Hp. simpl. raises_value_error.
Qed.

Lemma set_prompt_chat_string_langfuse_witness :
  exists msg,
    set_prompt accepting langfuse_instance (VStr "greeting") (VStr "Hello {{name}}")
               (VStr "chat") VNone VNone VNone VNone []
    = (Raise (MkExc ValueError msg None), []).
Proof.
  apply set_prompt_chat_string_langfuse. reflexivity.
Defined.

(** C1, as stated, fails on the registry-path provider: [prompt_type] is not
    consulted there, and the string template is registered. *)
Lemma set_prompt_chat_string_mlflow_registers :
  set_prompt accepting mlflow_instance (VStr "greeting") (VStr "Hello {{name}}")
             (VStr "chat") VNone VNone VNone VNone []
  = (Return [("provider", VStr "mlflow"); ("name", VStr "greeting");
             ("version", VInt 3)],
     [RegisterPrompt [("name", VStr "greeting");
                      ("template", VStr "Hello {{name}}")]]).
Proof. reflexivity. Qed.

(** C8. On the registry-path provider, when the arguments pass validation and
    the back end's registration returns an object, [set_prompt] returns the
    record [{provider, name, version}]: [name] is the object's [name]
    attribute, or the caller's name when the object has none; [version] is
    the object's [version] attribute, or [None].  Every record [set_prompt]
    returns there is of this form. *)
Theorem set_prompt_mlflow_record
    (W : World) (self : CentralPrompt)
    (name template prompt_type labels tags response_format commit_message : PyVal)
    (tr : Trace) :
  cp_provider self = "mlflow" ->
  let c := RegisterPrompt
             (register_kwargs name template response_format commit_message tags) in
  let out := set_prompt W self name template prompt_type labels tags
                        response_format commit_message tr in
  (forall obj,
      has_genai W = true ->
      _validate_name name = Return tt ->
      _validate_template template = Return tt ->
      _validate_labels labels = Return tt ->
      validate_tags tags = Return tt ->
      respond W tr c = Return obj ->
      out = (Return (registration_record obj name), (tr ++ [c])%list)) /\
  (forall d, fst out = Return d ->
      exists obj, respond W tr c = Return obj /\
                  out = (Return (registration_record obj name), (tr ++ [c])%list)).
Proof.
  intros Hp c out. subst c out. split.
  - intros obj Hg Hn Ht Hl Htags Hr.
    unfold set_prompt. run_m.
    rewrite Hn, Ht, Hl, Htags, Hp, Hg. simpl. rewrite Hr. reflexivity.
  - intros d.
    validators name template labels tags ltac:(simpl; discriminate).
    rewrite Hp. simpl.
    destruct (has_genai W); simpl; [| run_m; discriminate].
    run_m.
    destruct (respond W tr _) as [e | obj]; simpl; [discriminate |].
    intros _. exists obj. split; reflexivity.
Qed.

Lemma set_prompt_mlflow_record_witness :
  set_prompt accepting mlflow_instance (VStr "hello") (VStr "Hi {{name}}") VNone
             VNone VNone VNone (VStr "first") []
  = (Return [("provider", VStr "mlflow"); ("name", VStr "greeting");
             ("version", VInt 3)],
     [RegisterPrompt [("name", VStr "hello"); ("template", VStr "Hi {{name}}");
                      ("commit_message", VStr "first")]]).
Proof.
  apply (proj1 (set_prompt_mlflow_record accepting mlflow_instance
                  (VStr "hello") (VStr "Hi {{name}}") VNone VNone VNone VNone
                  (VStr "first") [] eq_refl) sample_prompt);
    reflexivity.
Defined.

Example set_prompt_mlflow_defaults :
  set_prompt empty_store mlflow_instance (VStr "hello") (VStr "Hi") VNone
             VNone VNone VNone VNone []
  = (Return [("provider", VStr "mlflow"); ("name", VStr "hello"); ("version", VNone)],
     [RegisterPrompt [("name", VStr "hello"); ("template", VStr "Hi")]]).
Proof. reflexivity. Qed.

(** C9. The empty list is a valid template.  On the name-based provider,
    [set_prompt] with [template=[]] and no [prompt_type], the other arguments
    valid, takes the type to be ["chat"] and makes the create call: it returns
    [{provider, name}] when the call returns and raises [PromptCreationError]
    when the call raises; no validation error occurs. *)
Theorem set_prompt_empty_list_langfuse
    (W : World) (self : CentralPrompt)
    (name labels tags response_format commit_message : PyVal) (tr : Trace) :
  _validate_template (VList []) = Return tt /\
  derived_type VNone (VList []) = VStr "chat" /\
  (cp_provider self = "langfuse" ->
   truthy (cp_langfuse_client self) = true ->
   _validate_name name = Return tt ->
   _validate_labels labels = Return tt ->
   validate_tags tags = Return tt ->
   let c := CreatePrompt (cp_langfuse_client self)
              (create_payload name (VStr "chat") (VList []) labels) in
   exists r,
     set_prompt W self name (VList []) VNone labels tags
                response_format commit_message tr = (r, (tr ++ [c])%list) /\
     (forall v, respond W tr c = Return v ->
                r = Return [("provider", VStr "langfuse"); ("name", name)]) /\
     (forall e, respond W tr c = Raise e ->
                exists msg, r = Raise (MkExc PromptCreationError msg (Some e)))).
Proof.
  split; [reflexivity | split; [reflexivity |]].
  intros Hp Hc Hn Hl Htags c. subst c.
  unfold set_prompt, client_of. run_m.
  rewrite Hn, Hl, Htags, Hp, Hc. simpl.
  destruct (respond W tr _) as [e | v] eqn:Hr; simpl.
  - eexists; split; [reflexivity |]. split; [discriminate |].
    intros e' He. injection He as <-. eexists; reflexivity.
  - eexists; split; [reflexivity |]. split; [| discriminate].
    intros _ _. reflexivity.
Qed.

Lemma set_prompt_empty_list_langfuse_witness :
  set_prompt accepting langfuse_instance (VStr "greeting") (VList []) VNone
             (VList [VStr "prod"]) VNone VNone VNone []
  = (Return [("provider", VStr "langfuse"); ("name", VStr "greeting")],
     [CreatePrompt sample_client
        [("name", VStr "greeting"); ("type", VStr "chat"); ("prompt", VList []);
         ("labels", VList [VStr "prod"])]]).
Proof.
  destruct (proj2 (proj2 (set_prompt_empty_list_langfuse accepting langfuse_instance
                     (VStr "greeting") (VList [VStr "prod"]) VNone VNone VNone []))
              eq_refl eq_refl eq_refl eq_refl eq_refl) as (r & Hrun & Hret & _).
  rewrite Hrun. rewrite (Hret VNone eq_refl). reflexivity.
Defined.

(* ------------------------------------------------------------------ *)
(** ** The path pattern *)

Lemma plus_from_stops {R} (cls : ascii -> bool) (taken rest : string)
      (k : string -> string -> option R) :
  stops cls rest -> Re.plus_from cls taken rest k = None.
Proof. destruct rest as [|c rest]; simpl; [reflexivity | now intros ->]. Qed.

(** A greedy repetition takes a whole run of the class when the continuation
    accepts what follows. *)
Lemma plus_from_run {R} (cls : ascii -> bool) (n : string) :
  forall (taken rest : string) (k : string -> string -> option R) (r : R),
    n <> "" ->
    all_chars cls n = true ->
    stops cls rest ->
    k (taken ++ n) rest = Some r ->
    Re.plus_from cls taken (n ++ rest) k = Some r.
Proof.
  induction n as [|c n IH]; intros taken rest k r Hne Hall Hstop Hk.
  - now elim Hne.
  - unfold all_chars in Hall. simpl in Hall.
    apply andb_true_iff in Hall as [Hc Hall]. simpl. rewrite Hc.
    destruct n as [|c' n'].
    + simpl. rewrite plus_from_stops by exact Hstop. exact Hk.
    + rewrite (IH (taken ++ String c "") rest k r); try assumption.
      * reflexivity.
      * discriminate.
      * rewrite append_assoc. exact Hk.
Qed.

Lemma path_zero_matches (n : string) :
  name_segment n ->
  Re.re_match Re.path_pattern ("prompts:/" ++ n ++ "/0") = Some [] /\
  Re.re_match Re.path_groups_pattern ("prompts:/" ++ n ++ "/0") = Some [n; "0"].
Proof.
  intros [Hne Hall]. unfold Re.re_match, Re.path_pattern, Re.path_groups_pattern.
  split; simpl; apply plus_from_run; try assumption; reflexivity.
Qed.

(* ------------------------------------------------------------------ *)
(** ** get_prompt, registry-path provider *)

Lemma has_genai_true (W : World) :
  has_genai W = true -> mlflow_imported W = true /\ mlflow_genai W = true.
Proof. unfold has_genai. now intros H%andb_true_iff. Qed.

(** C3. On the registry-path provider, [get_prompt] with
    [path="prompts:/greeting/3"], the load returning an object, returns the
    handle of name ["greeting"] and version [3], whatever [name], [version]
    and [label] the caller passes; with [path="prompts:/greeting/abc"] it
    raises [ValueError] and makes no call. *)
Theorem get_prompt_mlflow_path
    (W : World) (self : CentralPrompt) (name version label : PyVal) (tr : Trace) :
  cp_provider self = "mlflow" ->
  (forall obj,
      has_genai W = true ->
      respond W tr (LoadPrompt "prompts:/greeting/3") = Return obj ->
      get_prompt W self name version (VStr "prompts:/greeting/3") label tr
      = (Return {| ph_provider := "mlflow"; ph_underlying := obj;
                   ph_name := VStr "greeting"; ph_version := VInt 3 |},
         (tr ++ [LoadPrompt "prompts:/greeting/3"])%list)) /\
  (exists msg,
      get_prompt W self name version (VStr "prompts:/greeting/abc") label tr
      = (Raise (MkExc ValueError msg None), tr)).
Proof.
  intros Hp. split.
  - intros obj [Hi Hg]%has_genai_true Hr.
    unfold get_prompt, get_prompt_mlflow_target, load_prompt.
    rewrite Hp, Hi, Hg. run_m. rewrite Hr. reflexivity.
  - unfold get_prompt, get_prompt_mlflow_target. rewrite Hp. run_m.
    eexists; reflexivity.
Qed.

Lemma get_prompt_mlflow_path_witness :
  get_prompt accepting mlflow_instance (VStr "farewell") (VInt 9)
             (VStr "prompts:/greeting/3") VNone []
  = (Return {| ph_provider := "mlflow"; ph_underlying := sample_prompt;
               ph_name := VStr "greeting"; ph_version := VInt 3 |},
     [LoadPrompt "prompts:/greeting/3"]).
Proof.
  apply (proj1 (get_prompt_mlflow_path accepting mlflow_instance
                  (VStr "farewell") (VInt 9) VNone [] eq_refl));
    reflexivity.
Defined.

(** C10. On the registry-path provider the test for a positive version
    guards the name-and-version form only.  With no path and [version=0],
    [get_prompt] raises [ValueError] and makes no call.  With the path
    [prompts:/<name>/0], [<name>] a name segment, it passes validation and,
    the load returning an object, returns a handle of that name and
    version [0]. *)
Theorem get_prompt_mlflow_version_zero
    (W : World) (self : CentralPrompt) (name version label : PyVal) (tr : Trace) :
  cp_provider self = "mlflow" ->
  (exists msg,
      get_prompt W self name (VInt 0) VNone label tr
      = (Raise (MkExc ValueError msg None), tr)) /\
  (forall n obj,
      name_segment n ->
      has_genai W = true ->
      let path := "prompts:/" ++ n ++ "/0" in
      respond W tr (LoadPrompt path) = Return obj ->
      get_prompt W self name version (VStr path) label tr
      = (Return {| ph_provider := "mlflow"; ph_underlying := obj;
                   ph_name := VStr n; ph_version := VInt 0 |},
         (tr ++ [LoadPrompt path])%list)).
Proof.
  intros Hp. split.
  - unfold get_prompt. rewrite Hp. run_m.
    destruct (truthy name); simpl; eexists; reflexivity.
  - intros n obj Hn [Hi Hg]%has_genai_true path Hr. subst path.
    destruct (path_zero_matches n Hn) as [Hm Hgs].
    unfold get_prompt, get_prompt_mlflow_target, load_prompt.
    rewrite Hp. cbn [String.eqb Ascii.eqb Bool.eqb is_none].
    rewrite Hm, Hgs, Hi, Hg. run_m. rewrite Hr. reflexivity.
Qed.

Lemma get_prompt_mlflow_version_zero_witness :
  get_prompt accepting mlflow_instance VNone VNone (VStr "prompts:/greeting/0") VNone []
  = (Return {| ph_provider := "mlflow"; ph_underlying := sample_prompt;
               ph_name := VStr "greeting"; ph_version := VInt 0 |},
     [LoadPrompt "prompts:/greeting/0"]).
Proof.
  apply (proj2 (get_prompt_mlflow_version_zero accepting mlflow_instance
                  VNone VNone VNone [] eq_refl) "greeting" sample_prompt).
  - split; [discriminate | reflexivity].
  - reflexivity.
  - reflexivity.
Defined.

Example get_prompt_mlflow_by_name_and_version :
  get_prompt accepting mlflow_instance (VStr "greeting") (VInt 3) VNone VNone []
  = (Return {| ph_provider := "mlflow"; ph_underlying := sample_prompt;
               ph_name := VStr "greeting"; ph_version := VInt 3 |},
     [LoadPrompt "prompts:/greeting/3"]).
Proof. reflexivity. Qed.

Example get_prompt_mlflow_version_zero_by_name :
  get_prompt accepting mlflow_instance (VStr "greeting") (VInt 0) VNone VNone []
  = (raise ValueError "version must be a positive integer", []).
Proof. reflexivity. Qed.

(* ------------------------------------------------------------------ *)
(** ** get_prompt, name-based provider *)

Lemma init_langfuse_holds_client
    (W : World) (provider experiment load_env : PyVal)
    (self : CentralPrompt) (tr tr' : Trace) :
  CentralPrompt_init W provider experiment load_env tr = (Return self, tr') ->
  cp_provider self = "langfuse" ->
  exists tr0, respond W tr0 GetClient = Return (cp_langfuse_client self).
Proof.
  unfold CentralPrompt_init, _ensure_langfuse, load_env_file. run_m.
  destruct (_normalize_provider provider) as [e | p]; [discriminate |].
  destruct (negb (is_none experiment) && negb (is_str experiment))%bool;
    [discriminate |].
  destruct (p =? "mlflow") eqn:Em.
  { apply String.eqb_eq in Em. subst p.
    destruct (_ensure_mlflow W VNone experiment load_env tr) as [[e | []] tr1];
      [discriminate |].
    simpl. intros H. injection H as <- _. discriminate. }
  simpl. destruct (p =? "langfuse") eqn:El.
  2:{ simpl. intros H. injection H as <- _. simpl.
      intros ->. discriminate. }
  destruct (negb (get_client_imported W)); simpl; [discriminate |].
  destruct (truthy load_env); simpl.
  - destruct (respond W tr LoadDotenv); simpl;
      destruct (respond W _ GetClient) eqn:Hr; try discriminate;
      intros H; injection H as <- _; intros _; eexists; exact Hr.
  - destruct (respond W tr GetClient) eqn:Hr; [discriminate |].
    intros H; injection H as <- _; intros _; eexists; exact Hr.
Qed.

(** The constructor leaves the instance ready when [get_client()] yields
    values that are true, as instances of a client class are. *)
Lemma init_ready
    (W : World) (provider experiment load_env : PyVal)
    (self : CentralPrompt) (tr tr' : Trace) :
  (forall tr0 v, respond W tr0 GetClient = Return v -> truthy v = true) ->
  CentralPrompt_init W provider experiment load_env tr = (Return self, tr') ->
  ready self.
Proof.
  intros Htrue Hinit Hp.
  destruct (init_langfuse_holds_client _ _ _ _ _ _ _ Hinit Hp) as [tr0 Hr].
  exact (Htrue _ _ Hr).
Qed.

(** C4. On the name-based provider, [get_prompt] with both [version] and
    [label] other than [None] raises [ValueError] and makes no call. *)
Theorem get_prompt_langfuse_version_and_label
    (W : World) (self : CentralPrompt) (name version path label : PyVal)
    (tr : Trace) :
  cp_provider self = "langfuse" ->
  holds_client self ->
  version <> VNone ->
  label <> VNone ->
  exists msg,
    get_prompt W self name version path label tr
    = (Raise (MkExc ValueError msg None), tr).
Proof.
  intros Hp Hc Hv Hl.
  unfold get_prompt, client_of. rewrite Hp, Hc. run_m.
  destruct (negb (truthy name) || negb (is_str name))%bool; simpl;
    [raises_value_error |].
  destruct (negb (is_none label) && negb (is_str label))%bool; simpl;
    [raises_value_error |].
  destruct version; try (now elim Hv);
    destruct label; try (now elim Hl); simpl; raises_value_error.
Qed.

Lemma get_prompt_langfuse_version_and_label_witness :
  exists msg,
    get_prompt accepting langfuse_instance (VStr "greeting") (VInt 2) VNone
               (VStr "prod") []
    = (Raise (MkExc ValueError msg None), []).
Proof.
  apply get_prompt_langfuse_version_and_label;
    [reflexivity | reflexivity | discriminate | discriminate].
Defined.

(** C7. On the name-based provider, when the arguments pass validation and
    the back end's get call returns [None], [get_prompt] raises
    [PromptFetchError] with a message that contains the requested name. *)
Theorem get_prompt_langfuse_absent
    (W : World) (self : CentralPrompt) (n : string) (version path label : PyVal)
    (tr : Trace) :
  cp_provider self = "langfuse" ->
  holds_client self ->
  n <> "" ->
  (label = VNone \/ (version = VNone /\ exists l, label = VStr l)) ->
  let c := ClientGetPrompt (cp_langfuse_client self) (VStr n)
             (("version", version) :: optional "label" label) in
  respond W tr c = Return VNone ->
  exists msg,
    get_prompt W self (VStr n) version path label tr
    = (Raise (MkExc PromptFetchError msg None), (tr ++ [c])%list) /\
    PyStr.contains n msg.
Proof.
  intros Hp Hc Hn Hargs c Hr. subst c.
  unfold get_prompt, client_of. rewrite Hp, Hc. run_m.
  destruct (n =? "") eqn:En; [apply String.eqb_eq in En; contradiction |].
  simpl.
  destruct Hargs as [-> | [-> [l ->]]]; unfold optional in Hr; simpl in *.
  - rewrite andb_false_r. rewrite Hr. simpl.
    eexists; split; [reflexivity |].
    now exists "Langfuse prompt '", "' not found".
  - rewrite Hr. simpl.
    eexists; split; [reflexivity |].
    now exists "Langfuse prompt '", "' not found".
Qed.

Lemma get_prompt_langfuse_absent_witness :
  exists msg,
    get_prompt empty_store langfuse_instance (VStr "greeting") VNone VNone
               (VStr "prod") []
    = (Raise (MkExc PromptFetchError msg None),
       [ClientGetPrompt sample_client (VStr "greeting")
          [("version", VNone); ("label", VStr "prod")]]) /\
    PyStr.contains "greeting" msg.
Proof.
  apply (get_prompt_langfuse_absent empty_store langfuse_instance "greeting"
           VNone VNone (VStr "prod") []);
    [reflexivity | reflexivity | discriminate | | reflexivity].
  right. split; [reflexivity | now exists "prod"].
Defined.

Example get_prompt_langfuse_absent_message :
  get_prompt empty_store langfuse_instance (VStr "greeting") (VInt 2) VNone VNone []
  = (raise PromptFetchError "Langfuse prompt 'greeting' not found",
     [ClientGetPrompt sample_client (VStr "greeting") [("version", VInt 2)]]).
Proof. reflexivity. Qed.

(* ------------------------------------------------------------------ *)
(** ** Back-end failures *)


Lemma ensure_langfuse_run (W : World) (load_env : PyVal) (tr : Trace) :
  get_client_imported W = true ->
  _ensure_langfuse W load_env tr
  = (respond W (after_dotenv load_env tr) GetClient,
     (after_dotenv load_env tr ++ [GetClient])%list).
Proof.
  intros Hi. unfold _ensure_langfuse, load_env_file, after_dotenv.
  rewrite Hi. run_m.
  destruct (truthy load_env); simpl.
  - destruct (respond W tr LoadDotenv); simpl;
      destruct (respond W _ GetClient); reflexivity.
  - destruct (respond W tr GetClient); reflexivity.
Qed.















Example set_prompt_failure_message :
  set_prompt failing mlflow_instance (VStr "greeting") (VStr "Hi") VNone VNone
             VNone VNone VNone []
  = (raise_from PromptCreationError "MLflow prompt creation failed: boom" boom,
     [RegisterPrompt [("name", VStr "greeting"); ("template", VStr "Hi")]]).
Proof. reflexivity. Qed.

Example compile_failure_message :
  compile failing {| ph_provider := "langfuse"; ph_underlying := sample_prompt;
                     ph_name := VStr "greeting"; ph_version := VNone |}
          [("name", VStr "Ada")] []
  = (raise_from PromptCompilationError
       "Failed to compile prompt for provider 'langfuse': boom" boom,
     [Compile sample_prompt [("name", VStr "Ada")]]).
Proof. reflexivity. Qed.

Example compile_renders :
  compile accepting {| ph_provider := "mlflow"; ph_underlying := sample_prompt;
                       ph_name := VStr "greeting"; ph_version := VInt 3 |}
          [("name", VStr "Ada")] []
  = (Return (VStr "Hello Ada"), [Format sample_prompt [("name", VStr "Ada")]]).
Proof. reflexivity. Qed.

(* ================================================================== *)
(** * Further properties *)

(* ------------------------------------------------------------------ *)
(** ** Names, labels and tags *)

Lemma lstrip_all_space (s : string) :
  all_chars PyStr.is_space (PyStr.lstrip s) = all_chars PyStr.is_space s.
Proof.
  unfold all_chars. induction s as [|c s IH]; simpl; [reflexivity |].
  destruct (PyStr.is_space c) eqn:Ec; simpl; [exact IH | now rewrite Ec].
Qed.

Lemma rstrip_empty (s : string) :
  PyStr.rstrip s = "" <-> all_chars PyStr.is_space s = true.
Proof.
  unfold all_chars. induction s as [|c s IH]; simpl; [now split |].
  destruct (PyStr.rstrip s) as [|r rs].
  - destruct (PyStr.is_space c); simpl.
    + split; intros _; [now apply IH | reflexivity].
    + split; discriminate.
  - split; [discriminate |].
    intros [_ H]%andb_true_iff. apply IH in H. discriminate H.
Qed.

(** [s.strip()] is empty exactly when [s] is white space throughout. *)
Lemma strip_empty (s : string) :
  PyStr.strip s = "" <-> all_chars PyStr.is_space s = true.
Proof. unfold PyStr.strip. now rewrite rstrip_empty, lstrip_all_space. Qed.

Lemma forallb_false_exists {A} (f : A -> bool) (l : list A) :
  forallb f l = false <-> exists x, In x l /\ f x = false.
Proof.
  induction l as [|a l IH]; simpl.
  - split; [discriminate | now intros (x & [] & _)].
  - destruct (f a) eqn:Ea; simpl.
    + rewrite IH. split.
      * intros (x & Hin & Hx). exists x. auto.
      * intros (x & [-> | Hin] & Hx); [congruence | now exists x].
    + split; [| reflexivity]. intros _. exists a. auto.
Qed.

Lemma validate_name_ok (v : PyVal) :
  _validate_name v = Return tt <-> valid_name v.
Proof.
  unfold _validate_name, valid_name. split.
  - destruct v as [| | |s| | |]; try discriminate.
    destruct (PyStr.strip s =? "") eqn:E; [discriminate |]. intros _.
    assert (H : all_chars PyStr.is_space s = false).
    { destruct (all_chars PyStr.is_space s) eqn:Ha; [| reflexivity].
      apply strip_empty in Ha. rewrite Ha in E. discriminate E. }
    apply forallb_false_exists in H as (c & Hin & Hc). now exists s, c.
  - intros (s & c & -> & Hin & Hc).
    assert (H : all_chars PyStr.is_space s = false).
    { apply forallb_false_exists. now exists c. }
    destruct (PyStr.strip s =? "") eqn:E; [| reflexivity].
    apply String.eqb_eq, strip_empty in E. congruence.
Qed.

Lemma forallb_is_str (xs : list PyVal) :
  forallb is_str xs = true <-> Forall (fun x => exists s, x = VStr s) xs.
Proof.
  rewrite forallb_forall, Forall_forall.
  split; intros H x Hin; apply is_str_true, H, Hin.
Qed.

Lemma validate_labels_ok (v : PyVal) :
  _validate_labels v = Return tt <-> valid_labels v.
Proof.
  unfold _validate_labels, valid_labels. split.
  - destruct v as [| | | |xs| |]; try discriminate; [now left |].
    destruct (forallb is_str xs) eqn:E; [| discriminate].
    intros _. right. exists xs. split; [reflexivity | now apply forallb_is_str].
  - intros [-> | (xs & -> & H)]; [reflexivity |].
    apply forallb_is_str in H. now rewrite H.
Qed.

Lemma validate_tags_ok (v : PyVal) :
  validate_tags v = Return tt <-> valid_tags v.
Proof.
  unfold validate_tags, valid_tags. split.
  - destruct v as [| | | | |d|]; try discriminate; [now left |].
    destruct (forallb _ d) eqn:E; [| discriminate].
    intros _. right. exists d. split; [reflexivity |].
    rewrite forallb_forall in E. apply Forall_forall. intros [k x] Hin.
    apply E in Hin. simpl in Hin. apply andb_true_iff in Hin as [Hk Hx].
    apply is_str_true in Hk as [k' ->]. apply is_str_true in Hx as [x' ->].
    now exists k', x'.
  - intros [-> | (d & -> & H)]; [reflexivity |].
    assert (E : forallb (fun kv => (is_str (fst kv) && is_str (snd kv))%bool) d = true).
    { apply forallb_forall. intros kv Hin. rewrite Forall_forall in H.
      destruct (H kv Hin) as (k & s & ->). reflexivity. }
    now rewrite E.
Qed.

(** X1. [_validate_name] returns exactly on the strings that have a character
    other than white space, and raises [ValueError] on every other value:
    a value that is not a string, the empty string, a blank string. *)
Theorem validate_name_spec (v : PyVal) :
  (_validate_name v = Return tt <-> valid_name v) /\
  (~ valid_name v ->
   _validate_name v = raise ValueError "name must be a non-empty string").
Proof.
  split; [apply validate_name_ok |].
  intros H. rewrite <- validate_name_ok in H.
  unfold _validate_name in *. destruct v; try reflexivity.
  destruct (_ =? _); [reflexivity | now elim H].
Qed.

Lemma validate_name_spec_witness :
  _validate_name (VStr "  	 ") = raise ValueError "name must be a non-empty string".
Proof.
  apply (proj2 (validate_name_spec (VStr "  	 "))).
  intros (s & c & H & Hin & Hc). injection H as <-.
  simpl in Hin.
  destruct Hin as [<- | [<- | [<- | [<- | []]]]]; discriminate Hc.
Defined.

(** X2. [set_prompt] checks its arguments before anything else, on either
    provider and in every world: when the name, the template, the labels or the
    tags are not valid it raises [ValueError] and makes no call. *)
Theorem set_prompt_invalid_argument
    (W : World) (self : CentralPrompt)
    (name template prompt_type labels tags response_format commit_message : PyVal)
    (tr : Trace) :
  ~ (valid_name name /\ valid_template template /\
     valid_labels labels /\ valid_tags tags) ->
  exists msg,
    set_prompt W self name template prompt_type labels tags
               response_format commit_message tr
    = (Raise (MkExc ValueError msg None), tr).
Proof.
  intros Hbad.
  unfold set_prompt, bind at 1 2 3 4, lift at 1 2 3 4.
  destruct (validate_name_cases name) as [Hn | [? Hn]];
    rewrite Hn; cbn beta iota; [| raises_value_error].
  destruct (validate_template_cases template) as [Ht | [? Ht]];
    rewrite Ht; cbn beta iota; [| raises_value_error].
  destruct (validate_labels_cases labels) as [Hl | [? Hl]];
    rewrite Hl; cbn beta iota; [| raises_value_error].
  destruct (validate_tags_cases tags) as [Hg | [? Hg]];
    rewrite Hg; cbn beta iota; [| raises_value_error].
  exfalso. apply Hbad.
  rewrite <- validate_name_ok, <- validate_template_ok,
          <- validate_labels_ok, <- validate_tags_ok.
  auto.
Qed.

Lemma set_prompt_invalid_argument_witness :
  exists msg,
    set_prompt accepting mlflow_instance (VStr "greeting") (VStr "Hi")
               VNone VNone (VDict [(VStr "team", VInt 7)]) VNone VNone []
    = (Raise (MkExc ValueError msg None), []).
Proof.
  apply set_prompt_invalid_argument.
  intros (_ & _ & _ & [H | (d & H & Hall)]); [discriminate H |].
  injection H as <-.
  inversion Hall as [|? ? (k & s & Hkv) _]; subst. discriminate Hkv.
Defined.

(* ------------------------------------------------------------------ *)
(** ** set_prompt, further *)

(** X3. On the registry-path provider, when the arguments are valid but the
    [mlflow] module has no [genai] (or was not importable), [set_prompt] raises
    [ImportError] and makes no call. *)
Theorem set_prompt_mlflow_without_genai
    (W : World) (self : CentralPrompt)
    (name template prompt_type labels tags response_format commit_message : PyVal)
    (tr : Trace) :
  cp_provider self = "mlflow" ->
  has_genai W = false ->
  valid_name name -> valid_template template ->
  valid_labels labels -> valid_tags tags ->
  exists msg,
    set_prompt W self name template prompt_type labels tags
               response_format commit_message tr
    = (Raise (MkExc ImportError msg None), tr).
Proof.
  intros Hp Hg Hn%validate_name_ok Ht%validate_template_ok
         Hl%validate_labels_ok Htags%validate_tags_ok.
  unfold set_prompt. run_m. rewrite Hn, Ht, Hl, Htags, Hp, Hg. simpl.
  eexists; reflexivity.
Qed.

Lemma set_prompt_mlflow_without_genai_witness :
  exists msg,
    set_prompt {| mlflow_imported := true; mlflow_genai := false;
                  get_client_imported := true;
                  respond := respond accepting;
                  str_of_other := str_of_other accepting;
                  int_max_str_digits := 4300 |}
               mlflow_instance (VStr "greeting") (VStr "Hi") VNone VNone VNone
               VNone VNone []
    = (Raise (MkExc ImportError msg None), []).
Proof.
  apply set_prompt_mlflow_without_genai; try reflexivity.
  - exists "greeting", "g"%char.
    split; [reflexivity | split; [now left | reflexivity]].
  - left. now exists "Hi".
  - now left.
  - now left.
Defined.

(** X4. On the registry-path provider [set_prompt] does not use [prompt_type]
    and uses [labels] only to validate them: two calls that differ in these
    arguments alone, both label values valid, behave alike. *)
Theorem set_prompt_mlflow_ignores_type_and_labels
    (W : World) (self : CentralPrompt)
    (name template prompt_type prompt_type' labels labels' tags
     response_format commit_message : PyVal) (tr : Trace) :
  cp_provider self = "mlflow" ->
  valid_labels labels -> valid_labels labels' ->
  set_prompt W self name template prompt_type labels tags
             response_format commit_message tr
  = set_prompt W self name template prompt_type' labels' tags
               response_format commit_message tr.
Proof.
  intros Hp Hl%validate_labels_ok Hl'%validate_labels_ok.
  unfold set_prompt. run_m. rewrite Hl, Hl', Hp. reflexivity.
Qed.

Lemma set_prompt_mlflow_ignores_type_and_labels_witness :
  set_prompt accepting mlflow_instance (VStr "greeting") (VStr "Hi")
             (VStr "chat") (VList [VStr "prod"]) VNone VNone VNone []
  = set_prompt accepting mlflow_instance (VStr "greeting") (VStr "Hi")
               VNone VNone VNone VNone VNone [].
Proof.
  apply set_prompt_mlflow_ignores_type_and_labels.
  - reflexivity.
  - right. exists [VStr "prod"]. split; [reflexivity |].
    constructor; [now exists "prod" | constructor].
  - now left.
Defined.

Lemma valid_template_shape (template : PyVal) :
  _validate_template template = Return tt ->
  _is_chat_template template = negb (is_str template).
Proof.
  unfold _validate_template.
  destruct template; simpl; try discriminate; try reflexivity.
  destruct (chat_items items); [reflexivity | discriminate].
Qed.

(** X5. On the name-based provider, with valid arguments and no
    [prompt_type] (or a false one, as the empty string), [set_prompt] never
    fails validation: it makes the create call with [type] ["text"] for a
    string template and ["chat"] for a list, [labels] in the payload only when
    given, and when the call returns it returns [{provider, name}] with the
    caller's name. *)
Theorem set_prompt_langfuse_infers_type
    (W : World) (self : CentralPrompt)
    (name template prompt_type labels tags response_format commit_message : PyVal)
    (tr : Trace) :
  cp_provider self = "langfuse" ->
  holds_client self ->
  truthy prompt_type = false ->
  valid_name name -> valid_template template ->
  valid_labels labels -> valid_tags tags ->
  let dtype := VStr (if is_str template then "text" else "chat") in
  let payload :=
    ([("name", name); ("type", dtype); ("prompt", template)]
     ++ match labels with VNone => [] | _ => [("labels", labels)] end)%list in
  let c := CreatePrompt (cp_langfuse_client self) payload in
  let out := set_prompt W self name template prompt_type labels tags
                        response_format commit_message tr in
  snd out = (tr ++ [c])%list /\
  (forall v, respond W tr c = Return v ->
             fst out = Return [("provider", VStr "langfuse"); ("name", name)]).
Proof.
  intros Hp Hc Hpt Hn%validate_name_ok Ht%validate_template_ok
         Hl%validate_labels_ok Htags%validate_tags_ok dtype payload c out.
  subst out c payload dtype.
  pose proof (valid_template_shape _ Ht) as Hshape.
  unfold set_prompt, client_of, create_payload, derived_type, optional.
  run_m. rewrite Hn, Ht, Hl, Htags, Hp, Hpt, Hc, Hshape. simpl.
  destruct (is_str template), labels; simpl;
    (split; [destruct (respond W tr _); reflexivity | now intros v ->]).
Qed.

Lemma set_prompt_langfuse_infers_type_witness :
  set_prompt accepting langfuse_instance (VStr "greeting") (VStr "Hi {{name}}")
             (VStr "") VNone VNone VNone VNone []
  = (Return [("provider", VStr "langfuse"); ("name", VStr "greeting")],
     [CreatePrompt sample_client
        [("name", VStr "greeting"); ("type", VStr "text");
         ("prompt", VStr "Hi {{name}}")]]).
Proof.
  assert (Hn : valid_name (VStr "greeting")).
  { exists "greeting", "g"%char.
    split; [reflexivity | split; [now left | reflexivity]]. }
  assert (Ht : valid_template (VStr "Hi {{name}}")) by (left; now eexists).
  destruct (set_prompt_langfuse_infers_type accepting langfuse_instance
              (VStr "greeting") (VStr "Hi {{name}}") (VStr "") VNone VNone
              VNone VNone [] eq_refl eq_refl eq_refl Hn Ht
              (or_introl eq_refl) (or_introl eq_refl)) as [Htr Hret].
  rewrite (surjective_pairing (set_prompt _ _ _ _ _ _ _ _ _ _)).
  rewrite Htr, (Hret VNone eq_refl). reflexivity.
Defined.

(** X6. On the name-based provider a [prompt_type] that contradicts the
    template is refused, not coerced: [set_prompt] raises [ValueError] and
    makes no call when [prompt_type] is true but neither ["text"] nor
    ["chat"], and when it is ["text"] and the template is not a string. *)
Theorem set_prompt_langfuse_rejects_type
    (W : World) (self : CentralPrompt)
    (name template prompt_type labels tags response_format commit_message : PyVal)
    (tr : Trace) :
  cp_provider self = "langfuse" ->
  truthy prompt_type = true ->
  (eq_str prompt_type "text" = false /\ eq_str prompt_type "chat" = false) \/
  (prompt_type = VStr "text" /\ is_str template = false) ->
  exists msg,
    set_prompt W self name template prompt_type labels tags
               response_format commit_message tr
    = (Raise (MkExc ValueError msg None), tr).
Proof.
  intros Hp Hpt Hbad.
  validators name template labels tags raises_value_error.
  rewrite Hp. unfold derived_type. rewrite Hpt. simpl.
  destruct Hbad as [[H1 H2] | [-> H]].
  - rewrite H1, H2. simpl. raises_value_error.
  - simpl. rewrite H. simpl. raises_value_error.
Qed.

Lemma set_prompt_langfuse_rejects_type_witness :
  exists msg,
    set_prompt accepting langfuse_instance (VStr "greeting")
               (VList [VDict [(VStr "role", VStr "user"); (VStr "content", VStr "hi")]])
               (VStr "text") VNone VNone VNone VNone []
    = (Raise (MkExc ValueError msg None), []).
Proof.
  apply set_prompt_langfuse_rejects_type; [reflexivity | reflexivity |].
  right. split; reflexivity.
Defined.

(* ------------------------------------------------------------------ *)
(** ** The language of the path pattern *)

Lemma strip_prefix_spec (lit s rest : string) :
  Re.strip_prefix lit s = Some rest <-> s = lit ++ rest.
Proof.
  revert s. induction lit as [|a lit IH]; intros s; simpl.
  - split; [now intros [= ->] | now intros ->].
  - destruct s as [|b s]; [split; discriminate |].
    destruct (Ascii.eqb a b) eqn:E.
    + apply Ascii.eqb_eq in E. subst b. rewrite IH.
      split; [now intros -> | now intros [= ->]].
    + split; [discriminate |]. intros [= -> _].
      rewrite Ascii.eqb_refl in E. discriminate E.
Qed.

(** What a successful repetition took: a non-empty run of the class, and the
    continuation accepted the rest. *)
Lemma plus_from_inv {R} (cls : ascii -> bool) (s : string) :
  forall (taken : string) (k : string -> string -> option R) (r : R),
    Re.plus_from cls taken s k = Some r ->
    exists m rest,
      m <> "" /\ all_chars cls m = true /\ s = m ++ rest /\
      k (taken ++ m) rest = Some r.
Proof.
  induction s as [|c s IH]; intros taken k r; simpl; [discriminate |].
  destruct (cls c) eqn:Ec; [| discriminate].
  destruct (Re.plus_from cls (taken ++ String c "") s k) as [r'|] eqn:Emore.
  - intros [= ->]. apply IH in Emore as (m & rest & _ & Hall & -> & Hk).
    exists (String c m), rest. repeat split.
    + discriminate.
    + unfold all_chars in *. simpl. now rewrite Ec.
    + now rewrite append_assoc in Hk.
  - intros Hk. exists (String c ""), s. repeat split.
    + discriminate.
    + unfold all_chars. simpl. now rewrite Ec.
    + exact Hk.
Qed.

Lemma eol_inv (rest : string) :
  match rest with
  | EmptyString => true
  | String c EmptyString => Ascii.eqb c Re.newline
  | _ => false
  end = true ->
  rest = "" \/ rest = newline_string.
Proof.
  destruct rest as [|c [|c' rest]]; try discriminate.
  - now left.
  - intros ->%Ascii.eqb_eq. now right.
Qed.

(** Every string the pattern accepts is [prompts:/<n>/<d>], a newline after
    it at most. *)
Lemma path_pattern_inv (t : string) (gs : list string) :
  Re.re_match Re.path_pattern t = Some gs -> exists n d, path_shape t n d.
Proof.
  unfold Re.re_match, Re.path_pattern. cbn [Re.run].
  destruct (Re.strip_prefix "prompts:/" t) as [rest|] eqn:Ep; [| discriminate].
  apply strip_prefix_spec in Ep. subst t.
  intros (n & rest1 & Hn & Hnall & -> & Hk)%plus_from_inv.
  destruct (Re.strip_prefix "/" rest1) as [rest2|] eqn:Es; [| discriminate].
  apply strip_prefix_spec in Es. subst rest1.
  apply plus_from_inv in Hk as (d & rest3 & Hd & Hdall & -> & Hk).
  exists n, d. repeat split; try assumption.
  assert (Hend : rest3 = "" \/ rest3 = newline_string).
  { apply eol_inv. destruct rest3 as [|c [|c' r]]; try discriminate Hk;
      [reflexivity |]. now destruct (Ascii.eqb c Re.newline). }
  destruct Hend as [-> | ->]; [left | right].
  - now rewrite append_empty_r.
  - reflexivity.
Qed.

Lemma stops_newline : stops PyStr.is_digit newline_string.
Proof. reflexivity. Qed.

(** Every string of that shape is accepted, and the groups are its name and
    its digits. *)
Lemma path_shape_matches (t n d : string) :
  path_shape t n d ->
  Re.re_match Re.path_pattern t = Some [] /\
  Re.re_match Re.path_groups_pattern t = Some [n; d].
Proof.
  intros ([Hn Hnall] & [Hd Hdall] & Ht).
  assert (Hpre : forall tail,
             Re.strip_prefix "prompts:/" ("prompts:/" ++ n ++ "/" ++ d ++ tail)
             = Some (n ++ "/" ++ d ++ tail)) by reflexivity.
  assert (Hsl : forall tail,
             Re.strip_prefix "/" ("/" ++ d ++ tail) = Some (d ++ tail))
    by reflexivity.
  assert (Ht' : exists tail, (tail = "" \/ tail = newline_string) /\
                             t = "prompts:/" ++ n ++ "/" ++ d ++ tail).
  { destruct Ht as [-> | ->]; [exists "" | exists newline_string]; split; auto.
    now rewrite append_empty_r. }
  destruct Ht' as (tail & Htail & ->).
  unfold Re.re_match, Re.path_pattern, Re.path_groups_pattern.
  cbn [Re.run]. rewrite Hpre.
  split.
  - apply plus_from_run; try assumption; [reflexivity |].
    rewrite Hsl. apply plus_from_run; try assumption.
    + destruct Htail as [-> | ->]; [exact I | exact stops_newline].
    + destruct Htail as [-> | ->]; reflexivity.
  - apply plus_from_run; try assumption; [reflexivity |].
    rewrite Hsl. apply plus_from_run; try assumption.
    + destruct Htail as [-> | ->]; [exact I | exact stops_newline].
    + destruct Htail as [-> | ->]; reflexivity.
Qed.

(* ------------------------------------------------------------------ *)
(** ** Decimal text of a version *)







(* ------------------------------------------------------------------ *)
(** ** Strings that are not paths *)

Lemma append_inv_head (a b c : string) : a ++ b = a ++ c -> b = c.
Proof. induction a as [|x a IH]; simpl; [auto | intros [= H]; auto]. Qed.

Lemma all_chars_app (cls : ascii -> bool) (a b : string) :
  all_chars cls (a ++ b) = (all_chars cls a && all_chars cls b)%bool.
Proof.
  unfold all_chars. induction a as [|x a IH]; simpl; [reflexivity |].
  now rewrite IH, andb_assoc.
Qed.

Lemma all_chars_impl (p q : ascii -> bool) (s : string) :
  (forall c, p c = true -> q c = true) ->
  all_chars p s = true -> all_chars q s = true.
Proof.
  intros Hpq. unfold all_chars. induction s as [|c s IH]; simpl; [auto |].
  intros [Hc Hs]%andb_true_iff. now rewrite (Hpq c Hc), IH.
Qed.

Lemma digit_not_slash (c : ascii) :
  PyStr.is_digit c = true -> Re.not_slash c = true.
Proof.
  unfold Re.not_slash. destruct (Ascii.eqb_spec c "/"); [| reflexivity].
  subst c. discriminate.
Qed.

Lemma last_char_append (a b : string) :
  b <> "" -> last_char (a ++ b) = last_char b.
Proof.
  intros Hb. induction a as [|x a IH]; simpl; [reflexivity |].
  rewrite <- IH. destruct (a ++ b) eqn:E; [| reflexivity].
  destruct a; simpl in E; [now elim Hb | discriminate].
Qed.

Lemma last_char_all (cls : ascii -> bool) (s : string) :
  s <> "" -> all_chars cls s = true ->
  exists c, last_char s = Some c /\ cls c = true.
Proof.
  unfold all_chars. induction s as [|x s IH]; [now intros H |].
  intros _ [Hx Hs]%andb_true_iff. destruct s as [|y s].
  - exists x. now split.
  - destruct IH as (c & Hc & Hcls); [discriminate | exact Hs |].
    exists c. now split.
Qed.

Lemma append_nonempty_r (a b : string) : b <> "" -> a ++ b <> "".
Proof. destruct a; simpl; [auto | discriminate]. Qed.

(** A path ends in a digit or in the newline. *)
Lemma path_shape_last (t n d : string) :
  path_shape t n d ->
  exists c, last_char t = Some c /\
            (PyStr.is_digit c = true \/ c = Re.newline).
Proof.
  intros (_ & [Hd Hdall] & Ht).
  assert (Hnl : newline_string <> "") by discriminate.
  assert (Hsl : forall r, "/" ++ r <> "") by discriminate.
  destruct Ht as [-> | ->].
  - destruct (last_char_all _ _ Hd Hdall) as (c & Hc & Hcls).
    exists c. split; [| now left].
    rewrite (last_char_append "prompts:/") by apply append_nonempty_r, Hsl.
    rewrite (last_char_append n) by apply Hsl.
    now rewrite (last_char_append "/") by exact Hd.
  - exists Re.newline. split; [| now right].
    rewrite (last_char_append "prompts:/") by apply append_nonempty_r, Hsl.
    rewrite (last_char_append n) by apply Hsl.
    rewrite (last_char_append "/") by apply append_nonempty_r, Hnl.
    now rewrite (last_char_append d) by exact Hnl.
Qed.

(** Two readings of a string as [<name>/<rest>], the rest of one without a
    slash, give the same name. *)
Lemma split_at_slash (n z : string) :
  all_chars Re.not_slash n = true ->
  all_chars Re.not_slash z = true ->
  forall x y, x ++ "/" ++ y = n ++ "/" ++ z -> x = n.
Proof.
  intros Hn Hz. induction n as [|c n IH]; intros x y H.
  - destruct x as [|c' x]; [reflexivity |]. exfalso.
    simpl in H. injection H as -> H. subst z.
    rewrite all_chars_app in Hz. apply andb_true_iff in Hz as [_ Hz].
    discriminate Hz.
  - unfold all_chars in Hn. simpl in Hn. apply andb_true_iff in Hn as [Hc Hn].
    destruct x as [|c' x]; simpl in H.
    + injection H as <- _. discriminate Hc.
    + injection H as -> H. f_equal. now apply (IH Hn x y).
Qed.

Lemma path_shape_name (x dv n d : string) :
  path_shape ("prompts:/" ++ x ++ "/" ++ dv) n d -> x = n.
Proof.
  intros ([Hn Hnall] & [Hd Hdall] & Ht).
  assert (Hdig : all_chars Re.not_slash d = true)
    by (apply (all_chars_impl _ _ _ digit_not_slash), Hdall).
  destruct Ht as [Ht | Ht]; apply append_inv_head in Ht.
  - now apply (split_at_slash n d Hnall Hdig x dv).
  - apply (split_at_slash n (d ++ newline_string) Hnall) with (y := dv);
      [| exact Ht].
    rewrite all_chars_app, Hdig. reflexivity.
Qed.

(* ------------------------------------------------------------------ *)
(** ** get_prompt on the registry-path provider, further *)

Lemma target_rejected (W : World) (self : CentralPrompt) (target : PyVal)
      (tr : Trace) :
  (forall t n d, target = VStr t -> ~ path_shape t n d) ->
  exists msg,
    get_prompt_mlflow_target W self target tr
    = (Raise (MkExc ValueError msg None), tr).
Proof.
  intros Hbad. unfold get_prompt_mlflow_target.
  destruct target as [| | |t| | |]; try raises_value_error.
  destruct (Re.re_match Re.path_pattern t) as [gs|] eqn:Em;
    [| raises_value_error].
  apply path_pattern_inv in Em as (n & d & Hshape).
  now elim (Hbad t n d eq_refl).
Qed.

(** No limit applies to a run of 640 digits or fewer. *)
Lemma short_fits (W : World) (ndigits : N) : (ndigits <= 640)%N -> fits W ndigits.
Proof.
  intros H. unfold fits, exceeds_limit.
  destruct (N.ltb_spec 640 ndigits); [lia | reflexivity].
Qed.

Lemma py_format_cases (W : World) (v : PyVal) :
  (over_limit W v = false /\ py_format W v = Return (py_str W v)) \/
  (over_limit W v = true /\
   exists msg, py_format W v = Raise (MkExc ValueError msg None)).
Proof.
  unfold py_format, over_limit, str_of_int.
  destruct v; try (left; split; reflexivity).
  destruct (exceeds_limit W (digit_count z));
    [right; split; [reflexivity | eexists; reflexivity] | left; split; reflexivity].
Qed.

Lemma target_loaded (W : World) (self : CentralPrompt) (t n d : string)
      (obj : PyVal) (tr : Trace) :
  cp_provider self = "mlflow" ->
  path_shape t n d ->
  has_genai W = true ->
  respond W tr (LoadPrompt t) = Return obj ->
  fits W (length_N d) ->
  get_prompt_mlflow_target W self (VStr t) tr
  = (Return {| ph_provider := "mlflow"; ph_underlying := obj;
               ph_name := VStr n; ph_version := VInt (PyStr.to_Z d) |},
     (tr ++ [LoadPrompt t])%list).
Proof.
  intros Hp [Hm Hgs]%path_shape_matches [Hi Hg]%has_genai_true Hr Hfit.
  unfold get_prompt_mlflow_target, load_prompt, int_of_digits.
  rewrite Hm, Hgs, Hi, Hg, Hp.
  change (Re.group [n; d] 2) with d. change (Re.group [n; d] 1) with n.
  unfold fits, length_N in Hfit. rewrite Hfit.
  run_m. rewrite Hr. reflexivity.
Qed.

Lemma target_over_limit (W : World) (self : CentralPrompt) (t n d : string)
      (obj : PyVal) (tr : Trace) :
  path_shape t n d ->
  has_genai W = true ->
  respond W tr (LoadPrompt t) = Return obj ->
  ~ fits W (length_N d) ->
  exists msg,
    get_prompt_mlflow_target W self (VStr t) tr
    = (Raise (MkExc ValueError msg None), (tr ++ [LoadPrompt t])%list).
Proof.
  intros [Hm Hgs]%path_shape_matches [Hi Hg]%has_genai_true Hr Hfit.
  unfold get_prompt_mlflow_target, load_prompt, int_of_digits.
  rewrite Hm, Hgs, Hi, Hg.
  change (Re.group [n; d] 2) with d. change (Re.group [n; d] 1) with n.
  unfold fits, length_N in Hfit.
  destruct (exceeds_limit W (N.of_nat (String.length d)));
    [| now elim Hfit].
  run_m. rewrite Hr. eexists; reflexivity.
Qed.

(** X7. On the registry-path provider, [get_prompt] with a [path], a string of
    code points below 256 as every string here, accepts exactly the strings
    [prompts:/<name>/<digits>], [<name>] not empty and without a slash, and
    the same followed by one newline (the [$] of the pattern).  On any other
    path, string or not, it raises [ValueError] and makes no call.  On an
    accepted path, the load returning an object, the call carries the path as
    given, whatever [name], [version] and [label] are; then, the digits being
    within the limit of the interpreter (as 640 digits or fewer always are),
    the handle has the name and the number read from the path, and beyond
    the limit [int()] raises [ValueError], after the load was made. *)
Theorem get_prompt_mlflow_by_path
    (W : World) (self : CentralPrompt) (name version path label : PyVal)
    (tr : Trace) :
  cp_provider self = "mlflow" ->
  path <> VNone ->
  ((forall t n d, path = VStr t -> ~ path_shape t n d) ->
   exists msg,
     get_prompt W self name version path label tr
     = (Raise (MkExc ValueError msg None), tr)) /\
  (forall t n d obj,
      path = VStr t ->
      path_shape t n d ->
      has_genai W = true ->
      respond W tr (LoadPrompt t) = Return obj ->
      (fits W (length_N d) ->
       get_prompt W self name version path label tr
       = (Return {| ph_provider := "mlflow"; ph_underlying := obj;
                    ph_name := VStr n; ph_version := VInt (PyStr.to_Z d) |},
          (tr ++ [LoadPrompt t])%list)) /\
      (~ fits W (length_N d) ->
       exists msg,
         get_prompt W self name version path label tr
         = (Raise (MkExc ValueError msg None), (tr ++ [LoadPrompt t])%list))) /\
  (forall ndigits, (ndigits <= 640)%N -> fits W ndigits).
Proof.
  intros Hp Hpath.
  assert (Hnone : is_none path = false) by (destruct path; auto; now elim Hpath).
  unfold get_prompt. rewrite Hp, Hnone. simpl. split; [| split].
  - apply target_rejected.
  - intros t n d obj -> Hshape Hg Hr. split.
    + intros Hfit. now apply target_loaded.
    + intros Hfit. now apply (target_over_limit W self t n d obj).
  - apply short_fits.
Qed.

Lemma get_prompt_mlflow_by_path_witness :
  get_prompt accepting mlflow_instance VNone VNone
             (VStr ("prompts:/team.greeting/042" ++ newline_string)) VNone []
  = (Return {| ph_provider := "mlflow"; ph_underlying := sample_prompt;
               ph_name := VStr "team.greeting"; ph_version := VInt 42 |},
     [LoadPrompt ("prompts:/team.greeting/042" ++ newline_string)]).
Proof.
  destruct (get_prompt_mlflow_by_path accepting mlflow_instance VNone VNone
              (VStr ("prompts:/team.greeting/042" ++ newline_string)) VNone []
              eq_refl ltac:(discriminate)) as (_ & Hload & Hshort).
  apply (proj1 (Hload _ "team.greeting" "042" sample_prompt eq_refl
                  ltac:(split; [split; [discriminate | reflexivity] |];
                        split; [split; [discriminate | reflexivity] |];
                        right; reflexivity)
                  eq_refl eq_refl)).
  apply Hshort. vm_compute. discriminate.
Defined.




(** X9. On the registry-path provider with no [path], [get_prompt] reaches
    the back end in the case of X8 only.  When the name is false, its text
    is not a name segment (it is empty or has a slash), or the version is not
    an [int] that is at least 1 ([None], [0], a negative number, a string,
    and also [True], whose text is not a number) it raises [ValueError] and
    makes no call. *)
Theorem get_prompt_mlflow_by_name_version_rejects
    (W : World) (self : CentralPrompt) (name version label : PyVal) (tr : Trace) :
  cp_provider self = "mlflow" ->
  ~ (truthy name = true /\ name_segment (py_str W name) /\
     exists v, version = VInt v /\ (1 <= v)%Z) ->
  exists msg,
    get_prompt W self name version VNone label tr
    = (Raise (MkExc ValueError msg None), tr).
Proof.
  intros Hp Hbad. unfold get_prompt. rewrite Hp.
  cbn [String.eqb Ascii.eqb Bool.eqb is_none].
  destruct (truthy name) eqn:Hname; [| raises_value_error].
  destruct version as [|b|z| | | |]; try raises_value_error.
  - destruct b; [| raises_value_error].
    cbn [is_int int_value negb orb Z.ltb Z.compare Pos.compare Pos.compare_cont].
    unfold bind, lift.
    destruct (py_format_cases W name) as [[_ ->] | [_ [msg ->]]];
      [| raises_value_error].
    cbn [py_format py_str].
    apply target_rejected. intros t n d [= <-] Hshape.
    destruct (path_shape_last _ _ _ Hshape) as (c & Hc & Hcls).
    assert (Hne : "/True" <> "") by discriminate.
    change (last_char ("prompts:/" ++ py_str W name ++ "/True") = Some c) in Hc.
    rewrite (last_char_append "prompts:/") in Hc by apply append_nonempty_r, Hne.
    rewrite (last_char_append (py_str W name)) in Hc by exact Hne.
    simpl in Hc. injection Hc as <-.
    destruct Hcls as [H | H]; discriminate H.
  - cbn [is_int int_value negb orb].
    destruct (Z.ltb_spec z 1) as [Hlt | Hge]; [raises_value_error |].
    unfold bind, lift.
    destruct (py_format_cases W name) as [[_ ->] | [_ [msg ->]]];
      [| raises_value_error].
    destruct (py_format_cases W (VInt z)) as [[_ ->] | [_ [msg ->]]];
      [| raises_value_error].
    apply target_rejected. intros t n d [= <-] Hshape.
    apply Hbad. split; [reflexivity |]. split; [| now exists z].
    pose proof (path_shape_name (py_str W name) (PyStr.of_Z z) n d Hshape) as ->.
    apply Hshape.
Qed.

Lemma get_prompt_mlflow_by_name_version_rejects_witness :
  exists msg,
    get_prompt accepting mlflow_instance (VStr "greeting") (VBool true) VNone VNone []
    = (Raise (MkExc ValueError msg None), []).
Proof.
  apply get_prompt_mlflow_by_name_version_rejects; [reflexivity |].
  intros (_ & _ & v & H & _). discriminate H.
Defined.

Example get_prompt_mlflow_version_over_limit :
  get_prompt lowest_limit mlflow_instance VNone VNone
             (VStr ("prompts:/greeting/" ++ zeros 641)) VNone []
  = (raise ValueError
       ("Exceeds the limit (640 digits) for integer string conversion: "
        ++ "value has 641 digits; "
        ++ "use sys.set_int_max_str_digits() to increase the limit"),
     [LoadPrompt ("prompts:/greeting/" ++ zeros 641)]).
Proof. vm_compute. reflexivity. Qed.

Example get_prompt_mlflow_version_at_limit :
  fst (get_prompt lowest_limit mlflow_instance VNone VNone
                  (VStr ("prompts:/greeting/" ++ zeros 640)) VNone [])
  = Return {| ph_provider := "mlflow"; ph_underlying := sample_prompt;
              ph_name := VStr "greeting"; ph_version := VInt 0 |}.
Proof. vm_compute. reflexivity. Qed.

Example get_prompt_mlflow_name_with_slash :
  get_prompt accepting mlflow_instance (VStr "team/greeting") (VInt 3) VNone VNone []
  = (raise ValueError "mlflow 'path' must be of the form 'prompts:/<name>/<version>'",
     []).
Proof. reflexivity. Qed.

Example get_prompt_mlflow_integer_name :
  get_prompt accepting mlflow_instance (VInt 5) (VInt 3) VNone VNone []
  = (Return {| ph_provider := "mlflow"; ph_underlying := sample_prompt;
               ph_name := VStr "5"; ph_version := VInt 3 |},
     [LoadPrompt "prompts:/5/3"]).
Proof. reflexivity. Qed.

(* ------------------------------------------------------------------ *)
(** ** get_prompt on the name-based provider, further *)

(** X10. On the name-based provider, [get_prompt] raises [ValueError] and
    makes no call when the name is false (absent, empty) or not a string, and
    when a label is given that is not a string. *)
Theorem get_prompt_langfuse_rejects
    (W : World) (self : CentralPrompt) (name version path label : PyVal)
    (tr : Trace) :
  cp_provider self = "langfuse" ->
  holds_client self ->
  truthy name = false \/ is_str name = false \/
  (label <> VNone /\ is_str label = false) ->
  exists msg,
    get_prompt W self name version path label tr
    = (Raise (MkExc ValueError msg None), tr).
Proof.
  intros Hp Hc Hbad. unfold get_prompt, client_of. rewrite Hp, Hc. run_m.
  destruct (negb (truthy name) || negb (is_str name))%bool eqn:En; simpl;
    [raises_value_error |].
  apply orb_false_iff in En as [Ht%negb_false_iff Hs%negb_false_iff].
  destruct Hbad as [H | [H | [Hl Hls]]]; try congruence.
  rewrite Hls. destruct label; try (now elim Hl); simpl; raises_value_error.
Qed.

Lemma get_prompt_langfuse_rejects_witness :
  exists msg,
    get_prompt accepting langfuse_instance (VStr "greeting") VNone VNone (VInt 1) []
    = (Raise (MkExc ValueError msg None), []).
Proof.
  apply get_prompt_langfuse_rejects; [reflexivity | reflexivity |].
  right. right. split; [discriminate | reflexivity].
Defined.

(** X11. On the name-based provider, with a non-empty string name and at most
    one of [version] and [label], the get call returning an object,
    [get_prompt] makes that one call and returns a handle that carries the
    caller's name and version; [version] is passed on and kept as given,
    unchecked, and when it is [None] the handle takes the [version]
    attribute of the object, if it has one. *)
Theorem get_prompt_langfuse_handle
    (W : World) (self : CentralPrompt) (n : string) (version path label obj : PyVal)
    (tr : Trace) :
  cp_provider self = "langfuse" ->
  holds_client self ->
  n <> "" ->
  (label = VNone \/ (version = VNone /\ exists l, label = VStr l)) ->
  obj <> VNone ->
  let c := ClientGetPrompt (cp_langfuse_client self) (VStr n)
             (("version", version) :: optional "label" label) in
  respond W tr c = Return obj ->
  get_prompt W self (VStr n) version path label tr
  = (Return {| ph_provider := "langfuse"; ph_underlying := obj;
               ph_name := VStr n;
               ph_version := match version with
                             | VNone => match attr_of obj "version" with
                                        | Some v => v
                                        | None => VNone
                                        end
                             | _ => version
                             end |},
     (tr ++ [c])%list).
Proof.
  intros Hp Hc Hn Hargs Hobj c Hr. subst c.
  assert (Hnone : is_none obj = false) by (destruct obj; auto; now elim Hobj).
  unfold get_prompt, client_of. rewrite Hp, Hc. run_m.
  destruct (n =? "") eqn:En; [apply String.eqb_eq in En; contradiction |].
  simpl.
  destruct Hargs as [-> | [-> [l ->]]]; unfold optional in Hr; simpl in *.
  - rewrite andb_false_r. rewrite Hr. simpl. rewrite Hnone. simpl.
    destruct version; reflexivity.
  - rewrite Hr. simpl. rewrite Hnone. reflexivity.
Qed.

Lemma get_prompt_langfuse_handle_witness :
  get_prompt accepting langfuse_instance (VStr "farewell") (VStr "latest") VNone
             VNone []
  = (Return {| ph_provider := "langfuse"; ph_underlying := sample_prompt;
               ph_name := VStr "farewell"; ph_version := VStr "latest" |},
     [ClientGetPrompt sample_client (VStr "farewell") [("version", VStr "latest")]]).
Proof.
  apply (get_prompt_langfuse_handle accepting langfuse_instance "farewell"
           (VStr "latest") VNone VNone sample_prompt []);
    try reflexivity; try discriminate.
  now left.
Defined.

(* ------------------------------------------------------------------ *)
(** ** Provider names and handles *)

Lemma normalize_provider_cases (v : PyVal) :
  _normalize_provider v = Return "mlflow" \/
  _normalize_provider v = Return "langfuse" \/
  exists msg, _normalize_provider v = Raise (MkExc PromptProviderError msg None).
Proof.
  unfold _normalize_provider.
  destruct v; try (right; right; eexists; reflexivity).
  destruct (_ || _)%bool; [now left |].
  destruct (_ || _)%bool; [right; now left |].
  right; right; eexists; reflexivity.
Qed.

(** X12. Provider normalisation returns one of the two canonical names only,
    and a name it returned normalises to itself: normalising twice, as the
    handle does with the provider of its instance, changes nothing. *)
Theorem normalize_provider_canonical (v : PyVal) (p : string) :
  _normalize_provider v = Return p ->
  canonical p /\ _normalize_provider (VStr p) = Return p.
Proof.
  intros H.
  destruct (normalize_provider_cases v) as [E | [E | [msg E]]];
    rewrite E in H; try discriminate; injection H as <-;
    (split; [| reflexivity]); [now left | now right].
Qed.

Lemma normalize_provider_canonical_witness :
  canonical "langfuse" /\ _normalize_provider (VStr "langfuse") = Return "langfuse".
Proof.
  apply (normalize_provider_canonical (VStr " Lang-Fuse ")). reflexivity.
Defined.

(** X13. [compile] on a handle that [PromptHandle.__init__] built never
    raises the provider error: it makes one call, [format] on the registry-path
    provider and [compile] on the name-based one, on the underlying object
    and with the variables as given, and returns what the call returns,
    unchanged.  On a handle whose provider is neither name, it raises
    [PromptProviderError] and makes no call. *)
Theorem compile_dispatch
    (W : World) (self : PromptHandle) (variables : StrDict) (tr : Trace) :
  (forall provider underlying name version,
      PromptHandle_init provider underlying name version = Return self ->
      exists c,
        (ph_provider self = "mlflow" /\ c = Format underlying variables \/
         ph_provider self = "langfuse" /\ c = Compile underlying variables) /\
        snd (compile W self variables tr) = (tr ++ [c])%list /\
        forall v, respond W tr c = Return v ->
                  fst (compile W self variables tr) = Return v) /\
  (~ canonical (ph_provider self) ->
   compile W self variables tr
   = (raise PromptProviderError unsupported_provider, tr)).
Proof.
  split.
  - intros provider underlying name version Hinit.
    unfold PromptHandle_init in Hinit.
    destruct (normalize_provider_cases provider) as [E | [E | [msg E]]];
      rewrite E in Hinit; [| | discriminate]; injection Hinit as <-;
      unfold compile; run_m; eexists; (split; [| split]).
    + left. split; reflexivity.
    + destruct (respond W tr _); reflexivity.
    + now intros v ->.
    + right. split; reflexivity.
    + destruct (respond W tr _); reflexivity.
    + now intros v ->.
  - intros Hbad. unfold compile. run_m.
    destruct (ph_provider self =? "mlflow") eqn:Em.
    { apply String.eqb_eq in Em. elim Hbad. now left. }
    destruct (ph_provider self =? "langfuse") eqn:El.
    { apply String.eqb_eq in El. elim Hbad. now right. }
    reflexivity.
Qed.

Lemma compile_dispatch_witness :
  compile accepting {| ph_provider := "openai"; ph_underlying := sample_prompt;
                       ph_name := VNone; ph_version := VNone |}
          [("name", VStr "Ada")] []
  = (raise PromptProviderError unsupported_provider, []).
Proof.
  apply (proj2 (compile_dispatch accepting _ [("name", VStr "Ada")] [])).
  intros [H | H]; discriminate H.
Defined.

(* ------------------------------------------------------------------ *)
(** ** Construction *)

(** X14. [_ensure_langfuse] raises [ImportError] and makes no call when
    [get_client] was not importable.  Otherwise it returns or raises what
    [get_client()] does, after the attempt to load the environment file when
    one is asked for: whether that attempt returns or raises makes no
    difference to the outcome. *)
Theorem ensure_langfuse_outcome (W : World) (load_env : PyVal) (tr : Trace) :
  (get_client_imported W = false ->
   _ensure_langfuse W load_env tr
   = (raise ImportError "langfuse is not installed", tr)) /\
  (get_client_imported W = true ->
   _ensure_langfuse W load_env tr
   = (respond W (after_dotenv load_env tr) GetClient,
      (after_dotenv load_env tr ++ [GetClient])%list)).
Proof.
  split.
  - intros Hi. unfold _ensure_langfuse. now rewrite Hi.
  - apply ensure_langfuse_run.
Qed.

Lemma ensure_langfuse_outcome_witness :
  _ensure_langfuse without_dotenv (VBool true) []
  = (Return sample_client, [LoadDotenv; GetClient]).
Proof.
  exact (proj2 (ensure_langfuse_outcome without_dotenv (VBool true) []) eq_refl).
Defined.

(** X15. [_ensure_mlflow] with an explicit experiment (a non-empty string)
    never reads [MLFLOW_EXPERIMENT_NAME]: whatever the calls it makes do, that
    variable is not among them, and when it returns, its last call set the
    experiment to the caller's value. *)
Theorem ensure_mlflow_explicit_experiment
    (W : World) (tracking_uri experiment load_env : PyVal) (tr : Trace) :
  truthy experiment = true ->
  exists calls,
    snd (_ensure_mlflow W tracking_uri experiment load_env tr)
    = (tr ++ calls)%list /\
    ~ In (GetEnv "MLFLOW_EXPERIMENT_NAME") calls /\
    (fst (_ensure_mlflow W tracking_uri experiment load_env tr) = Return tt ->
     exists before, calls = (before ++ [SetExperiment experiment])%list).
Proof.
  intros He. unfold _ensure_mlflow, load_env_file. rewrite He. run_m.
  assert (Hno : forall cs, Forall (fun c => c <> GetEnv "MLFLOW_EXPERIMENT_NAME") cs ->
                           ~ In (GetEnv "MLFLOW_EXPERIMENT_NAME") cs).
  { intros cs Hall Hin. rewrite Forall_forall in Hall. now apply (Hall _ Hin). }
  destruct (negb (mlflow_imported W)); simpl.
  { exists []. rewrite app_nil_r. repeat split; [now intros [] | discriminate]. }
  repeat (simpl;
          match goal with
          | |- context [truthy experiment] => rewrite He
          | |- context [truthy ?v] => destruct (truthy v)
          | |- context [respond W ?t ?c] => destruct (respond W t c)
          end);
    simpl; rewrite <- ?app_assoc; simpl;
    (eexists; split; [reflexivity |]; split;
     [ apply Hno; repeat (apply Forall_cons; [discriminate |]); apply Forall_nil
     | try discriminate; intros _;
       first [ now exists []
             | now eexists [_]
             | now eexists [_; _]
             | now eexists [_; _; _] ] ]).
Qed.

Lemma ensure_mlflow_explicit_experiment_witness :
  exists calls,
    snd (_ensure_mlflow accepting VNone (VStr "team-a") (VBool false) [])
    = ([] ++ calls)%list /\
    ~ In (GetEnv "MLFLOW_EXPERIMENT_NAME") calls /\
    (fst (_ensure_mlflow accepting VNone (VStr "team-a") (VBool false) [])
     = Return tt ->
     exists before, calls = (before ++ [SetExperiment (VStr "team-a")])%list).
Proof.
  apply ensure_mlflow_explicit_experiment. reflexivity.
Defined.

Example ensure_mlflow_from_environment :
  _ensure_mlflow
    (world_with (fun _ c => match c with
                            | GetEnv "MLFLOW_TRACKING_URI" => Return (VStr "http://mlflow")
                            | GetEnv _ => Return VNone
                            | _ => Return VNone
                            end))
    VNone VNone (VBool true) []
  = (Return tt,
     [LoadDotenv; GetEnv "MLFLOW_TRACKING_URI";
      SetTrackingUri (VStr "http://mlflow"); GetEnv "MLFLOW_EXPERIMENT_NAME"]).
Proof. reflexivity. Qed.

Lemma ensure_mlflow_not_imported
    (W : World) (tracking_uri experiment load_env : PyVal) (tr : Trace) :
  mlflow_imported W = false ->
  _ensure_mlflow W tracking_uri experiment load_env tr
  = (raise ImportError "mlflow is not installed", tr).
Proof. intros H. unfold _ensure_mlflow. now rewrite H. Qed.

(** X16. An instance the constructor returns has a canonical provider, the one
    its argument normalises to, keeps the experiment and the flag as given, the
    experiment being [None] or a string; on the registry-path provider the
    module was importable and the instance holds no client, on the name-based
    provider it holds what [get_client()] returned. *)
Theorem init_instance
    (W : World) (provider experiment load_env : PyVal)
    (self : CentralPrompt) (tr tr' : Trace) :
  CentralPrompt_init W provider experiment load_env tr = (Return self, tr') ->
  _normalize_provider provider = Return (cp_provider self) /\
  canonical (cp_provider self) /\
  cp_experiment self = experiment /\
  (experiment = VNone \/ exists e, experiment = VStr e) /\
  cp_load_env self = load_env /\
  (cp_provider self = "mlflow" ->
   mlflow_imported W = true /\ cp_langfuse_client self = VNone) /\
  (cp_provider self = "langfuse" ->
   get_client_imported W = true /\
   respond W (after_dotenv load_env tr) GetClient
   = Return (cp_langfuse_client self)).
Proof.
  unfold CentralPrompt_init. run_m.
  assert (Hexp : (negb (is_none experiment) && negb (is_str experiment))%bool = false ->
                 experiment = VNone \/ exists e, experiment = VStr e).
  { destruct experiment; simpl; try discriminate; intros _;
      [now left | right; now eexists]. }
  destruct (normalize_provider_cases provider) as [E | [E | [msg E]]];
    rewrite E; [| | discriminate];
    (destruct (negb (is_none experiment) && negb (is_str experiment))%bool eqn:Ee;
     [discriminate |]); specialize (Hexp eq_refl); simpl.
  - destruct (mlflow_imported W) eqn:Hi.
    2:{ rewrite ensure_mlflow_not_imported by exact Hi. discriminate. }
    destruct (_ensure_mlflow W VNone experiment load_env tr) as [[e | []] tr1];
      [discriminate |].
    intros [= <- _]. simpl.
    repeat split; try assumption; try reflexivity; try discriminate. now left.
  - destruct (get_client_imported W) eqn:Hi.
    2:{ unfold _ensure_langfuse. rewrite Hi. discriminate. }
    rewrite ensure_langfuse_run by exact Hi.
    destruct (respond W (after_dotenv load_env tr) GetClient) as [e | client] eqn:Hr;
      [discriminate |].
    intros [= <- _]. simpl.
    repeat split; try assumption; try reflexivity; try discriminate. now right.
Qed.

Lemma init_instance_witness :
  _normalize_provider (VStr "LANGFUSE") = Return (cp_provider langfuse_instance) /\
  canonical (cp_provider langfuse_instance) /\
  cp_experiment langfuse_instance = VNone /\
  (VNone = VNone \/ exists e, VNone = VStr e) /\
  cp_load_env langfuse_instance = VBool false /\
  (cp_provider langfuse_instance = "mlflow" ->
   mlflow_imported accepting = true /\ cp_langfuse_client langfuse_instance = VNone) /\
  (cp_provider langfuse_instance = "langfuse" ->
   get_client_imported accepting = true /\
   respond accepting (after_dotenv (VBool false) []) GetClient
   = Return (cp_langfuse_client langfuse_instance)).
Proof.
  apply (init_instance accepting (VStr "LANGFUSE") VNone (VBool false)
           langfuse_instance [] [GetClient]).
  reflexivity.
Defined.

(** X17. The constructor fails before it makes any call: with the provider
    error when the provider does not normalise, whatever the experiment is;
    with [ValueError] when the experiment is neither [None] nor a string; with
    [ImportError] when the module of the chosen provider was not
    importable. *)
Theorem init_fails_before_calls
    (W : World) (provider experiment load_env : PyVal) (tr : Trace) :
  (forall e, _normalize_provider provider = Raise e ->
             CentralPrompt_init W provider experiment load_env tr = (Raise e, tr)) /\
  (forall p, _normalize_provider provider = Return p ->
             experiment <> VNone -> is_str experiment = false ->
             CentralPrompt_init W provider experiment load_env tr
             = (raise ValueError "experiment must be a string or None", tr)) /\
  (forall p, _normalize_provider provider = Return p ->
             (experiment = VNone \/ is_str experiment = true) ->
             (p = "mlflow" /\ mlflow_imported W = false \/
              p = "langfuse" /\ get_client_imported W = false) ->
             exists msg,
               CentralPrompt_init W provider experiment load_env tr
               = (Raise (MkExc ImportError msg None), tr)).
Proof.
  unfold CentralPrompt_init. run_m. repeat split.
  - intros e ->. reflexivity.
  - intros p -> Hne Hs. rewrite Hs.
    destruct experiment; try reflexivity. now elim Hne.
  - intros p -> Hexp Himp.
    assert (He : (negb (is_none experiment) && negb (is_str experiment))%bool = false).
    { destruct Hexp as [-> | ->]; [reflexivity | apply andb_false_r]. }
    rewrite He.
    destruct Himp as [[-> Hi] | [-> Hi]]; simpl.
    + rewrite ensure_mlflow_not_imported by exact Hi. eexists; reflexivity.
    + unfold _ensure_langfuse. rewrite Hi. eexists; reflexivity.
Qed.

Lemma init_fails_before_calls_witness :
  CentralPrompt_init accepting (VStr "openai") (VInt 3) (VBool true) []
  = (raise PromptProviderError unsupported_provider, []).
Proof.
  apply (proj1 (init_fails_before_calls accepting (VStr "openai") (VInt 3)
                  (VBool true) [])).
  reflexivity.
Defined.

(* ------------------------------------------------------------------ *)
(** ** The errors an instance raises *)

Lemma target_error_kinds (W : World) (self : CentralPrompt) (target : PyVal)
      (tr : Trace) (e : Exc) :
  canonical (cp_provider self) ->
  fst (get_prompt_mlflow_target W self target tr) = Raise e ->
  exc_kind e = ValueError \/ exc_kind e = PromptFetchError.
Proof.
  intros Hcan. unfold get_prompt_mlflow_target, load_prompt.
  destruct target as [| | |t| | |]; simpl; try (intros [= <-]; now left).
  destruct (Re.re_match Re.path_pattern t); simpl; [| intros [= <-]; now left].
  run_m.
  assert (Hinit : forall obj n v,
             exists h, PromptHandle_init (VStr (cp_provider self)) obj n v = Return h).
  { intros. unfold PromptHandle_init.
    destruct Hcan as [-> | ->]; simpl; eexists; reflexivity. }
  destruct (negb (mlflow_imported W)); simpl; [intros [= <-]; now right |].
  destruct (negb (mlflow_genai W)); simpl; [intros [= <-]; now right |].
  destruct (respond W tr (LoadPrompt t)) as [e' | obj]; simpl;
    [intros [= <-]; now right |].
  destruct (Re.re_match Re.path_groups_pattern t) as [gs|]; simpl.
  - unfold int_of_digits.
    destruct (exceeds_limit W _); simpl; [intros [= <-]; now left |].
    match goal with
    | |- context [PromptHandle_init ?p ?o ?n ?v] =>
        destruct (Hinit o n v) as [h ->]
    end.
    discriminate.
  - match goal with
    | |- context [PromptHandle_init ?p ?o ?n ?v] =>
        destruct (Hinit o n v) as [h ->]
    end.
    discriminate.
Qed.

(** X18. An instance with a canonical provider that holds its client raises
    from [set_prompt] nothing but [ValueError], [ImportError] and
    [PromptCreationError], and from [get_prompt] nothing but [ValueError] and
    [PromptFetchError]: the provider error of the last branch of either
    cannot occur, and no failure of a back end comes out unwrapped. *)
Theorem instance_error_kinds (W : World) (self : CentralPrompt) :
  canonical (cp_provider self) ->
  ready self ->
  (forall name template prompt_type labels tags response_format commit_message
          tr e,
      fst (set_prompt W self name template prompt_type labels tags
                      response_format commit_message tr) = Raise e ->
      exc_kind e = ValueError \/ exc_kind e = ImportError \/
      exc_kind e = PromptCreationError) /\
  (forall name version path label tr e,
      fst (get_prompt W self name version path label tr) = Raise e ->
      exc_kind e = ValueError \/ exc_kind e = PromptFetchError).
Proof.
  intros Hcan Hready. split.
  - intros name template prompt_type labels tags response_format commit_message
           tr e.
    validators name template labels tags ltac:(simpl; intros [= <-]; now left).
    destruct Hcan as [Hp | Hp]; rewrite Hp; simpl.
    + destruct (negb (has_genai W)); simpl;
        [intros [= <-]; right; now left |].
      run_m. destruct (respond W tr _); simpl; [| discriminate].
      intros [= <-]. right; now right.
    + destruct (negb _); simpl; [intros [= <-]; now left |].
      destruct (_ && _)%bool; simpl; [intros [= <-]; now left |].
      destruct (_ && _)%bool; simpl; [intros [= <-]; now left |].
      unfold client_of. rewrite (Hready Hp). run_m.
      destruct (respond W tr _); simpl; [| discriminate].
      intros [= <-]. right; now right.
  - intros name version path label tr e. unfold get_prompt.
    destruct Hcan as [Hp | Hp]; rewrite Hp;
      cbn [String.eqb Ascii.eqb Bool.eqb].
    + destruct (is_none path); [| now apply target_error_kinds; left].
      destruct (_ || _)%bool; [simpl; intros [= <-]; now left |].
      destruct (_ || _)%bool; [simpl; intros [= <-]; now left |].
      unfold bind, lift.
      destruct (py_format_cases W name) as [[_ ->] | [_ [msg ->]]];
        [| simpl; intros [= <-]; now left].
      destruct (py_format_cases W version) as [[_ ->] | [_ [msg ->]]];
        [| simpl; intros [= <-]; now left].
      apply target_error_kinds. now left.
    + unfold client_of. rewrite (Hready Hp). run_m.
      destruct (_ || _)%bool; simpl; [intros [= <-]; now left |].
      destruct (_ && _)%bool; simpl; [intros [= <-]; now left |].
      destruct (_ && _)%bool; simpl; [intros [= <-]; now left |].
      destruct (negb (is_none label)); simpl;
        (destruct (respond W tr _) as [e' | obj]; simpl;
         [intros [= <-]; now right |]);
        (destruct (is_none obj); simpl; [intros [= <-]; now right |]);
        simpl; discriminate.
Qed.

Lemma instance_error_kinds_witness :
  let e := MkExc PromptFetchError
             "MLflow load_prompt failed for 'prompts:/greeting/3': boom"
             (Some boom) in
  exc_kind e = ValueError \/ exc_kind e = PromptFetchError.
Proof.
  intros e.
  apply (proj2 (instance_error_kinds failing mlflow_instance
                  (or_introl eq_refl) ltac:(intros H; discriminate H))
           VNone VNone (VStr "prompts:/greeting/3") VNone [] e).
  reflexivity.
Defined.

(* ------------------------------------------------------------------ *)
(** ** Labels, tags, explicit types, handles *)

(** X19. [_validate_labels] returns exactly on [None] and on the lists of
    strings, and the check of [tags] in [set_prompt] exactly on [None] and on
    the dicts whose keys and values are all strings; both raise [ValueError]
    otherwise.  The empty list and the empty dict pass. *)
Theorem validate_labels_tags_spec :
  (forall v, _validate_labels v = Return tt <-> valid_labels v) /\
  (forall v, ~ valid_labels v ->
             _validate_labels v = raise ValueError "labels must be a list of strings") /\
  (forall v, validate_tags v = Return tt <-> valid_tags v) /\
  (forall v, ~ valid_tags v ->
             validate_tags v = raise ValueError "tags must be a dict[str, str]") /\
  _validate_labels (VList []) = Return tt /\
  validate_tags (VDict []) = Return tt.
Proof.
  split; [exact validate_labels_ok |]. split.
  { intros v H. rewrite <- validate_labels_ok in H. unfold _validate_labels in *.
    destruct v; try reflexivity; [now elim H |].
    destruct (forallb is_str items); [now elim H | reflexivity]. }
  split; [exact validate_tags_ok |]. split.
  { intros v H. rewrite <- validate_tags_ok in H. unfold validate_tags in *.
    destruct v; try reflexivity; [now elim H |].
    destruct (forallb _ entries); [now elim H | reflexivity]. }
  split; reflexivity.
Qed.

Lemma validate_labels_tags_spec_witness :
  _validate_labels (VStr "prod") = raise ValueError "labels must be a list of strings".
Proof.
  apply (proj1 (proj2 validate_labels_tags_spec)).
  intros [H | (xs & H & _)]; discriminate H.
Defined.

(** X20. On the name-based provider, a [prompt_type] that names the shape the
    valid template has changes nothing: [set_prompt] behaves as it does with
    no [prompt_type]. *)
Theorem set_prompt_langfuse_explicit_type
    (W : World) (self : CentralPrompt)
    (name template labels tags response_format commit_message : PyVal)
    (tr : Trace) :
  cp_provider self = "langfuse" ->
  valid_template template ->
  set_prompt W self name template
             (VStr (if is_str template then "text" else "chat"))
             labels tags response_format commit_message tr
  = set_prompt W self name template VNone labels tags
               response_format commit_message tr.
Proof.
  intros Hp Ht%validate_template_ok.
  pose proof (valid_template_shape _ Ht) as Hshape.
  unfold set_prompt, derived_type. rewrite Hshape.
  destruct (is_str template); reflexivity.
Qed.

Lemma set_prompt_langfuse_explicit_type_witness :
  set_prompt accepting langfuse_instance (VStr "greeting") (VList [])
             (VStr "chat") VNone VNone VNone VNone []
  = set_prompt accepting langfuse_instance (VStr "greeting") (VList [])
               VNone VNone VNone VNone VNone [].
Proof.
  apply (set_prompt_langfuse_explicit_type accepting langfuse_instance
           (VStr "greeting") (VList []) VNone VNone VNone VNone [] eq_refl).
  right. exists []. split; [reflexivity | constructor].
Defined.

(** X21. [PromptHandle.__init__] fails with the provider error exactly when
    its provider does not normalise.  Otherwise the handle has the canonical
    provider and the object as given; a name or version other than [None] is
    kept as given, false values such as [0] and the empty string included,
    and only [None] is replaced by the attribute of the object, or left
    [None] when the object has none. *)
Theorem PromptHandle_init_spec (provider underlying name version : PyVal) :
  (forall e, _normalize_provider provider = Raise e ->
             PromptHandle_init provider underlying name version = Raise e) /\
  (forall p, _normalize_provider provider = Return p ->
     exists h,
       PromptHandle_init provider underlying name version = Return h /\
       ph_provider h = p /\ canonical p /\
       ph_underlying h = underlying /\
       (name <> VNone -> ph_name h = name) /\
       (version <> VNone -> ph_version h = version) /\
       (name = VNone ->
        ph_name h = match attr_of underlying "name" with
                    | Some v => v | None => VNone end) /\
       (version = VNone ->
        ph_version h = match attr_of underlying "version" with
                       | Some v => v | None => VNone end)).
Proof.
  unfold PromptHandle_init. split.
  - now intros e ->.
  - intros p Hp. rewrite Hp. eexists. split; [reflexivity |]. simpl.
    repeat split; try (now intros ->).
    + destruct (normalize_provider_cases provider) as [E | [E | [msg E]]];
        rewrite E in Hp; try discriminate; injection Hp as <-;
        [now left | now right].
    + destruct name; auto. intros H; now elim H.
    + destruct version; auto. intros H; now elim H.
Qed.

Lemma PromptHandle_init_spec_witness :
  exists h,
    PromptHandle_init (VStr "MLflow") sample_prompt (VStr "") (VInt 0) = Return h /\
    ph_name h = VStr "" /\ ph_version h = VInt 0.
Proof.
  destruct (proj2 (PromptHandle_init_spec (VStr "MLflow") sample_prompt
                     (VStr "") (VInt 0)) "mlflow" eq_refl)
    as (h & Hinit & _ & _ & _ & Hname & Hver & _).
  exists h. split; [exact Hinit |].
  split; [apply Hname | apply Hver]; discriminate.
Defined.



Example repr_of_bare_handle :
  PromptHandle_repr accepting
    {| ph_provider := "langfuse"; ph_underlying := VStr "raw";
       ph_name := VNone; ph_version := VNone |}
  = Return "PromptHandle(provider='langfuse', underlying=str)".
Proof. reflexivity. Qed.
